(** * Indian-Pincode: the lookup bot of [pincode_bot.py]

    A shallow embedding of the search, rendering and session logic of the
    Telegram pincode bot, and the properties of its specification settled
    against it.

    Conventions of the embedding.
    - Python [str] is [string]; the model is exact on 7-bit ASCII text
      ([str.lower], [str.strip] and [int] act on code points in Python,
      on bytes here).
    - A row of the data frame is a [Record]; the frame is the list of its
      rows in file order.  Text columns hold text, [pincode] holds an
      integer, the two coordinates hold a float64 that may be NaN.
    - Effects (the logger, the transport, the per-user dictionaries and
      the working directory) are threaded through a [world]; an
      exception is a [Raise] outcome and does not roll the world back.
    - Of the calls on the transport only [reply_document] is given a
      failing outcome; the others are recorded in [sent] as calls made
      and accepted, so nothing here says what happens when the
      transport refuses one of them. *)

From Stdlib Require Import ZArith List Bool Ascii String Lia.
From stdpp Require Import base option list gmap strings pretty.

Local Open Scope string_scope.
Local Open Scope list_scope.
Local Open Scope Z_scope.

(** ** Text *)

Module Text.

(** [c.isspace()] on ASCII: TAB, LF, VT, FF, CR, FS, GS, RS, US, SPACE. *)
Definition isspace (c : ascii) : bool :=
  let n := nat_of_ascii c in
  ((9 <=? n)%nat && (n <=? 13)%nat) || ((28 <=? n)%nat && (n <=? 32)%nat).

Definition isdigit (c : ascii) : bool :=
  let n := nat_of_ascii c in (48 <=? n)%nat && (n <=? 57)%nat.

Definition isupper (c : ascii) : bool :=
  let n := nat_of_ascii c in (65 <=? n)%nat && (n <=? 90)%nat.

Definition isalnum (c : ascii) : bool :=
  let n := nat_of_ascii c in
  isdigit c || isupper c || ((97 <=? n)%nat && (n <=? 122)%nat).

Definition lower_char (c : ascii) : ascii :=
  if isupper c then ascii_of_nat (nat_of_ascii c + 32) else c.

(** [s.lower()] *)
Fixpoint lower (s : string) : string :=
  match s with
  | "" => ""
  | String c s' => String (lower_char c) (lower s')
  end.

(** [s.lstrip()] *)
Fixpoint lstrip (s : string) : string :=
  match s with
  | "" => ""
  | String c s' => if isspace c then lstrip s' else s
  end.

(** [s.rstrip()]: a character is dropped when it is a space and
    everything after it has been dropped. *)
Fixpoint rstrip (s : string) : string :=
  match s with
  | "" => ""
  | String c s' =>
      match rstrip s' with
      | "" => if isspace c then "" else String c ""
      | t => String c t
      end
  end.

(** [s.strip()] *)
Definition strip (s : string) : string := rstrip (lstrip s).

(** [s.startswith(p)] *)
Fixpoint startswith (p s : string) : bool :=
  match p, s with
  | "", _ => true
  | String a p', String b s' => if Ascii.eqb a b then startswith p' s' else false
  | String _ _, "" => false
  end.

(** [p in s] *)
Fixpoint contains (p s : string) : bool :=
  startswith p s ||
  match s with
  | "" => false
  | String _ s' => contains p s'
  end.

(** [sep.join(ls)] *)
Fixpoint join (sep : string) (ls : list string) : string :=
  match ls with
  | [] => ""
  | [x] => x
  | x :: rest => x +:+ sep +:+ join sep rest
  end.

(** [s.split(sep, 1)] for a one-character separator: the text before
    the first separator and the text after it, or the whole text. *)
Fixpoint split_once (sep : ascii) (s : string) : list string :=
  match s with
  | "" => [""]
  | String c s' =>
      if Ascii.eqb c sep then [""; s']
      else match split_once sep s' with
           | a :: rest => String c a :: rest
           | [] => [String c ""]
           end
  end.

(** [all(p(c) for c in s)] *)
Fixpoint all (p : ascii -> bool) (s : string) : bool :=
  match s with
  | "" => true
  | String c s' => p c && all p s'
  end.

(** [str(n)] for an integer. *)
Definition str_int (n : Z) : string := pretty n.

End Text.

(** ** [int(query)] *)

Module PyInt.
Import Text.

(** [Py_ISSPACE]: TAB, LF, VT, FF, CR and SPACE, the characters [int]
    skips around an ASCII literal (fewer than [str.isspace] knows). *)
Definition isspace_c (c : ascii) : bool :=
  let n := nat_of_ascii c in
  ((9 <=? n)%nat && (n <=? 13)%nat) || (n =? 32)%nat.

Fixpoint skip_leading (s : string) : string :=
  match s with
  | "" => ""
  | String c s' => if isspace_c c then skip_leading s' else s
  end.

Fixpoint skip_trailing (s : string) : string :=
  match s with
  | "" => ""
  | String c s' =>
      match skip_trailing s' with
      | "" => if isspace_c c then "" else String c ""
      | t => String c t
      end
  end.

Definition digit_val (c : ascii) : Z := Z.of_nat (nat_of_ascii c) - 48.

(** Digits with single underscores between them. [prev] tells whether
    the previous character was a digit. *)
Fixpoint digits (acc : Z) (prev : bool) (s : string) : option Z :=
  match s with
  | "" => if prev then Some acc else None
  | String c s' =>
      if isdigit c then digits (10 * acc + digit_val c) true s'
      else if Ascii.eqb c "_" then
        if prev then digits acc false s' else None
      else None
  end.

(** The number of digits of a literal; underscores do not count. *)
Fixpoint digit_count (s : string) : Z :=
  match s with
  | "" => 0
  | String c s' => (if isdigit c then 1 else 0) + digit_count s'
  end.

(** [sys.int_info.default_max_str_digits]: a decimal literal with more
    digits is refused with [ValueError]. *)
Definition max_str_digits : Z := 4300.

Definition decimal (ds : string) : option Z :=
  if digit_count ds <=? max_str_digits then digits 0 false ds else None.

(** [int(s)] on ASCII text: the whitespace of [Py_ISSPACE] skipped on
    both sides, an optional sign, then the digits, at most
    [max_str_digits] of them. [None] stands for [ValueError]. *)
Definition py_int (s : string) : option Z :=
  match skip_trailing (skip_leading s) with
  | String "-" ds => Z.opp <$> decimal ds
  | String "+" ds => decimal ds
  | ds => decimal ds
  end.

End PyInt.

(** ** The regular expressions of [Series.str.contains]

    [Series.str.contains(pat)] is called with its defaults, so [pat] is
    compiled with [re.compile] and every cell is tested with
    [pattern.search].  The syntax modelled here is: literal characters,
    [.], a backslash before a character that is neither a letter nor a
    digit, groups, [|], and the postfix [*], [+], [?] with an optional
    lazy [?].  Everything else ([[], [{], [^], [$], [(?], a backslash
    before a letter or a digit, stacked quantifiers) is left to
    [re_beyond], a parameter of the model. *)

Module Regex.
Import Text.

Inductive regex :=
| Void
| Eps
| Chr (c : ascii)
| Dot
| Cat (r1 r2 : regex)
| Alt (r1 r2 : regex)
| Star (r : regex).

Fixpoint nullable (r : regex) : bool :=
  match r with
  | Void | Chr _ | Dot => false
  | Eps | Star _ => true
  | Cat r1 r2 => nullable r1 && nullable r2
  | Alt r1 r2 => nullable r1 || nullable r2
  end.

(** [.] matches any character except a newline. *)
Definition newline : ascii := "010".

Fixpoint deriv (c : ascii) (r : regex) : regex :=
  match r with
  | Void | Eps => Void
  | Chr d => if Ascii.eqb c d then Eps else Void
  | Dot => if Ascii.eqb c newline then Void else Eps
  | Cat r1 r2 =>
      if nullable r1 then Alt (Cat (deriv c r1) r2) (deriv c r2)
      else Cat (deriv c r1) r2
  | Alt r1 r2 => Alt (deriv c r1) (deriv c r2)
  | Star r1 => Cat (deriv c r1) (Star r1)
  end.

(** [pattern.match(s) is not None]: some prefix of [s] is matched. *)
Fixpoint match_prefix (r : regex) (s : string) : bool :=
  nullable r ||
  match s with
  | "" => false
  | String c s' => match_prefix (deriv c r) s'
  end.

(** [pattern.search(s) is not None]: a match starts somewhere in [s]. *)
Fixpoint search (r : regex) (s : string) : bool :=
  match_prefix r s ||
  match s with
  | "" => false
  | String _ s' => search r s'
  end.

(** *** [re.compile] on the modelled syntax *)

Inductive quant_state := Fresh | Quantified | Closed.

(** A group being read: the alternatives already closed by [|] and the
    items of the current one, both most recent first. *)
Record frame := { alts : list regex; items : list (regex * quant_state) }.

Definition empty_frame : frame := {| alts := []; items := [] |}.

Definition push (r : regex) (f : frame) : frame :=
  {| alts := alts f; items := (r, Fresh) :: items f |}.

Definition seq_of (its : list (regex * quant_state)) : regex :=
  fold_left (fun acc it => Cat (fst it) acc) its Eps.

Definition alt_of (f : frame) : regex :=
  fold_left (fun acc r => Alt r acc) (alts f) (seq_of (items f)).

Definition next_alt (f : frame) : frame :=
  {| alts := seq_of (items f) :: alts f; items := [] |}.

Inductive compiled :=
| Pattern (r : regex)
| BadPattern
| Beyond.

Definition plus (r : regex) : regex := Cat r (Star r).
Definition opt (r : regex) : regex := Alt Eps r.

(** One quantifier character [c] ([q] is what it builds) applied to
    the last item of the frame.  With no item before it [re] reports
    "nothing to repeat"; after a quantified item only the lazy [?] is
    modelled. *)
Inductive repeated :=
| Repeated (f : frame)
| NothingToRepeat
| Stacked.

Definition quantify (c : ascii) (q : regex -> regex) (f : frame) : repeated :=
  match items f with
  | [] => NothingToRepeat
  | (r, Fresh) :: rest =>
      Repeated {| alts := alts f; items := (q r, Quantified) :: rest |}
  | (r, Quantified) :: rest =>
      if Ascii.eqb c "?"
      then Repeated {| alts := alts f; items := (r, Closed) :: rest |}
      else Stacked
  | (_, Closed) :: _ => Stacked
  end.

Fixpoint parse (stack : list frame) (cur : frame) (s : string) : compiled :=
  let repeat c q s' :=
    match quantify c q cur with
    | Repeated cur' => parse stack cur' s'
    | NothingToRepeat => BadPattern
    | Stacked => Beyond
    end in
  match s with
  | "" =>
      match stack with
      | [] => Pattern (alt_of cur)
      | _ :: _ => BadPattern
      end
  | String "(" s' =>
      match s' with
      | String "?" _ => Beyond
      | _ => parse (cur :: stack) empty_frame s'
      end
  | String ")" s' =>
      match stack with
      | [] => BadPattern
      | parent :: stack' => parse stack' (push (alt_of cur) parent) s'
      end
  | String "|" s' => parse stack (next_alt cur) s'
  | String "*" s' => repeat "*"%char Star s'
  | String "+" s' => repeat "+"%char plus s'
  | String "?" s' => repeat "?"%char opt s'
  | String "." s' => parse stack (push Dot cur) s'
  | String "\" s' =>
      match s' with
      | "" => BadPattern
      | String d s'' =>
          if isalnum d then Beyond else parse stack (push (Chr d) cur) s''
      end
  | String "[" _ | String "{" _ | String "^" _ | String "$" _ => Beyond
  | String c s' => parse stack (push (Chr c) cur) s'
  end.

Definition parse_pattern (pat : string) : compiled :=
  parse [] empty_frame pat.

Section Compile.
(** [re.compile] outside the modelled syntax: [None] when it raises
    [re.error], otherwise the [search] test of the pattern. *)
Variable re_beyond : string -> option (string -> bool).

Definition compile (pat : string) : option (string -> bool) :=
  match parse_pattern pat with
  | Pattern r => Some (search r)
  | BadPattern => None
  | Beyond => re_beyond pat
  end.
End Compile.

(** *** The language of a pattern *)

Inductive matches : regex -> string -> Prop :=
| MEps : matches Eps ""
| MChr c : matches (Chr c) (String c "")
| MDot c : c <> newline -> matches Dot (String c "")
| MCat r1 r2 s1 s2 :
    matches r1 s1 -> matches r2 s2 -> matches (Cat r1 r2) (s1 +:+ s2)
| MAltL r1 r2 s : matches r1 s -> matches (Alt r1 r2) s
| MAltR r1 r2 s : matches r2 s -> matches (Alt r1 r2) s
| MStar0 r : matches (Star r) ""
| MStarS r s1 s2 :
    matches r s1 -> matches (Star r) s2 -> matches (Star r) (s1 +:+ s2).

(** *** Patterns without special characters *)

(** The characters [re] gives a meaning to. *)
Definition special (c : ascii) : bool :=
  existsb (Ascii.eqb c) (list_ascii_of_string ".\[{()*+?^$|").

Fixpoint plain (p : string) : bool :=
  match p with
  | "" => true
  | String c p' => negb (special c) && plain p'
  end.

(** The pattern that reads the characters of [p] and then goes on as [r]. *)
Fixpoint literal_then (p : string) (r : regex) : regex :=
  match p with
  | "" => r
  | String c p' => Cat (Chr c) (literal_then p' r)
  end.

Definition literal (p : string) : regex := literal_then p Eps.

Fixpoint push_literal (p : string) (f : frame) : frame :=
  match p with
  | "" => f
  | String c p' => push_literal p' (push (Chr c) f)
  end.

End Regex.

(** ** Data model *)

(** A float64 cell.  The program never computes with a coordinate: it
    tests it with [pd.notna] and interpolates it into an f-string.  A
    number is therefore kept as the text [str()] gives it, which
    determines the float. *)
Inductive float64 :=
| NaN
| Num (repr : string).

Definition notna (x : float64) : bool :=
  match x with NaN => false | Num _ => true end.

Definition str_float (x : float64) : string :=
  match x with NaN => "nan" | Num t => t end.

(** One row of [pincodes.csv] after the column names are lower-cased;
    [to_dict('records')] turns it into a dict with the same keys. *)
Record row := {
  circlename : string;
  regionname : string;
  divisionname : string;
  officename : string;
  pincode : Z;
  officetype : string;
  delivery : string;
  district : string;
  statename : string;
  latitude : float64;
  longitude : float64
}.

Definition DataFrame := list row.

(** [df[mask]] for a boolean series aligned with the frame. *)
Fixpoint boolean_index (df : DataFrame) (mask : list bool) : DataFrame :=
  match df, mask with
  | r :: df', b :: mask' =>
      if b then r :: boolean_index df' mask' else boolean_index df' mask'
  | _, _ => []
  end.

(** [a | b] on boolean series. *)
Fixpoint series_or (a b : list bool) : list bool :=
  match a, b with
  | x :: a', y :: b' => (x || y) :: series_or a' b'
  | _, _ => []
  end.

(** [enumerate(l)] *)
Fixpoint enumerate_from {A} (i : nat) (l : list A) : list (nat * A) :=
  match l with
  | [] => []
  | x :: l' => (i, x) :: enumerate_from (S i) l'
  end.

Definition enumerate {A} (l : list A) : list (nat * A) := enumerate_from 0 l.

(** ** The document built with FPDF: the drawing calls, in order *)

Inductive pdf_op :=
| AddPage
| SetFont (family style : string) (size : Z)
| Cell (w h : Z) (txt : string) (ln : Z) (align : string)
| Ln (h : Z).

Definition document := list pdf_op.

(** ** Effects *)

Inductive exn :=
| ValueError
| ReError
| IndexError
| OSError
| TelegramError.

Definition is_ValueError (e : exn) : bool :=
  match e with ValueError => true | _ => false end.

(** [except Exception] *)
Definition is_Exception (e : exn) : bool := true.

Record button := { label : string; callback_data : string }.

(** Calls made on the transport. *)
Inductive outgoing :=
| ReplyText (text : string) (parse_mode : option string)
            (reply_markup : option (list (list button)))
            (disable_web_page_preview : bool)
| Answer
| EditMessageText (text : string)
| ReplyDocument (content : document) (caption filename : string).

(** The keys the handlers keep in [context.user_data]. *)
Record session := {
  last_results : option (list row);
  last_query : option string
}.

Definition no_session : session :=
  {| last_results := None; last_query := None |}.

Record world := {
  log : list (string * exn);
  sent : list outgoing;
  user_data : gmap Z session;
  files : gmap string document
}.

Definition session_of (w : world) (uid : Z) : session :=
  default no_session (user_data w !! uid).

Inductive result (A : Type) :=
| Ok (a : A)
| Raise (e : exn).
Arguments Ok {A} a.
Arguments Raise {A} e.

Definition M (A : Type) : Type := world -> result A * world.

#[global] Instance M_ret : MRet M := fun A a w => (Ok a, w).

#[global] Instance M_bind : MBind M := fun A B f m w =>
  match m w with
  | (Ok a, w') => f a w'
  | (Raise e, w') => (Raise e, w')
  end.

Definition raise {A} (e : exn) : M A := fun w => (Raise e, w).

(** [try: body / except <caught> as e: handler e] *)
Definition try_except {A} (body : M A) (caught : exn -> bool)
    (handler : exn -> M A) : M A := fun w =>
  match body w with
  | (Raise e, w') => if caught e then handler e w' else (Raise e, w')
  | ok => ok
  end.

Fixpoint for_each {A} (l : list A) (body : A -> M unit) : M unit :=
  match l with
  | [] => mret tt
  | x :: l' => body x ;; for_each l' body
  end.

Definition logger_error (msg : string) (e : exn) : M unit := fun w =>
  (Ok tt, {| log := log w ++ [(msg, e)]; sent := sent w;
             user_data := user_data w; files := files w |}).

Definition send (o : outgoing) : M unit := fun w =>
  (Ok tt, {| log := log w; sent := sent w ++ [o];
             user_data := user_data w; files := files w |}).

Definition set_session (uid : Z) (f : session -> session) : M unit := fun w =>
  (Ok tt, {| log := log w; sent := sent w;
             user_data := <[uid := f (session_of w uid)]> (user_data w);
             files := files w |}).

Definition get_session (uid : Z) : M session := fun w =>
  (Ok (session_of w uid), w).

Definition write_file (path : string) (d : document) : M unit := fun w =>
  (Ok tt, {| log := log w; sent := sent w; user_data := user_data w;
             files := <[path := d]> (files w) |}).

(** [open(path, 'rb')] and reading it. *)
Definition open_rb (path : string) : M document := fun w =>
  match files w !! path with
  | Some d => (Ok d, w)
  | None => (Raise OSError, w)
  end.

(** [os.remove(path)] *)
Definition os_remove (path : string) : M unit := fun w =>
  match files w !! path with
  | Some _ => (Ok tt, {| log := log w; sent := sent w;
                         user_data := user_data w;
                         files := delete path (files w) |})
  | None => (Raise OSError, w)
  end.

(** What a run takes from outside the program: [re.compile] beyond the
    modelled syntax, and whether the two calls of the export that can
    fail for outside reasons do: writing the file in [pdf.output] and
    handing it to the transport in [reply_document]. *)
Record env := {
  re_beyond : string -> option (string -> bool);
  output_fails : bool;
  reply_document_fails : bool
}.

(** ** The program *)

Definition nl : string := String Regex.newline "".

(** Icons for different fields *)
Definition ICONS : gmap string string :=
  list_to_map [
    ("pincode", "📌"); ("office", "🏢"); ("type", "🏷️");
    ("delivery", "📦"); ("circle", "🔵"); ("region", "🗺️");
    ("division", "🏛️"); ("district", "📍"); ("state", "🏳️");
    ("location", "🌐") ].

Definition icon (key : string) : string := ICONS !!! key.

Definition maps_url (result : row) : string :=
  "https://www.google.com/maps?q=" +:+ str_float (latitude result)
    +:+ "," +:+ str_float (longitude result).

Definition has_coordinates (result : row) : bool :=
  notna (latitude result) && notna (longitude result).

(** The lines [format_result] collects before joining them. *)
Definition format_lines (result : row) (index : option nat) : list string :=
  let lines := [] in
  let lines :=
    match index with
    | Some i => lines ++ ["🔹 <b>Result " +:+ Text.str_int (Z.of_nat i + 1) +:+ "</b>"]
    | None => lines
    end in
  let lines := lines ++ [
    icon "pincode" +:+ " <b>Pincode:</b> " +:+ Text.str_int (pincode result);
    icon "office" +:+ " <b>Office:</b> " +:+ officename result;
    icon "type" +:+ " <b>Type:</b> " +:+ officetype result;
    icon "delivery" +:+ " <b>Delivery:</b> " +:+ delivery result;
    icon "circle" +:+ " <b>Circle:</b> " +:+ circlename result;
    icon "region" +:+ " <b>Region:</b> " +:+ regionname result;
    icon "division" +:+ " <b>Division:</b> " +:+ divisionname result;
    icon "district" +:+ " <b>District:</b> " +:+ district result;
    icon "state" +:+ " <b>State:</b> " +:+ statename result ] in
  if has_coordinates result
  then lines ++ [icon "location" +:+ " <a href='" +:+ maps_url result
                   +:+ "'>View on Google Maps</a>"]
  else lines.

Definition format_result (result : row) (index : option nat) : string :=
  Text.join nl (format_lines result index).

(** The calls [create_pdf] makes on the FPDF object for one result of
    its loop, appended to the calls made so far. *)
Definition pdf_result (pdf : document) (ir : nat * row) : document :=
  let '(i, result) := ir in
  let pdf := pdf ++ [SetFont "Arial" "B" 12] in
  let pdf := pdf ++ [Cell 200 10 ("Result " +:+ Text.str_int (Z.of_nat i + 1)) 1 ""] in
  let pdf := pdf ++ [SetFont "Arial" "" 12] in
  let details := [
    "Pincode: " +:+ Text.str_int (pincode result);
    "Office: " +:+ officename result;
    "Type: " +:+ officetype result;
    "Delivery: " +:+ delivery result;
    "Circle: " +:+ circlename result;
    "Region: " +:+ regionname result;
    "Division: " +:+ divisionname result;
    "District: " +:+ district result;
    "State: " +:+ statename result ] in
  let pdf := fold_left (fun pdf line => pdf ++ [Cell 200 10 line 1 ""]) details pdf in
  let pdf :=
    if has_coordinates result
    then pdf ++ [Cell 200 10 ("Google Maps: " +:+ maps_url result) 1 ""]
    else pdf in
  pdf ++ [Ln 5].

(** The FPDF object when [create_pdf] reaches [pdf.output]. *)
Definition pdf_document (results : list row) (query : string) : document :=
  let pdf := [AddPage; SetFont "Arial" "" 12] in
  let pdf := pdf ++ [SetFont "Arial" "B" 16] in
  let pdf := pdf ++ [Cell 200 10 "Indian Pincode Search Results" 1 "C"] in
  let pdf := pdf ++ [SetFont "Arial" "" 12] in
  let pdf := pdf ++ [Cell 200 10 ("Search Query: " +:+ query) 1 "C"] in
  let pdf := pdf ++ [Ln 10] in
  fold_left pdf_result (enumerate results) pdf.

Section Bot.

Variable E : env.
(** The frame loaded from [pincodes.csv] when the module is imported. *)
Variable df : DataFrame.

(** [series.str.lower().str.contains(pat)] *)
Definition str_contains (column : list string) (pat : string) : M (list bool) :=
  match Regex.compile (re_beyond E) pat with
  | Some found => mret (map (fun cell => found (Text.lower cell)) column)
  | None => raise ReError
  end.

Definition int_ (query : string) : M Z :=
  match PyInt.py_int query with
  | Some n => mret n
  | None => raise ValueError
  end.

(** The body of the outer [try] of [search_pincode]. *)
Definition search_body (query : string) : M (list row) :=
  results ← try_except
    (pincode_ ← int_ query;
     mret (boolean_index df (map (fun r => pincode r =? pincode_) df)))
    is_ValueError
    (fun _ =>
       let query := Text.lower query in
       m1 ← str_contains (map officename df) query;
       m2 ← str_contains (map district df) query;
       m3 ← str_contains (map statename df) query;
       mret (boolean_index df (series_or (series_or m1 m2) m3)));
  mret results.

Definition search_pincode (query : string) : M (list row) :=
  try_except (search_body query) is_Exception
    (fun e => logger_error "Error in search: " e ;; mret []).

Definition pdf_output (path : string) (pdf : document) : M unit :=
  if output_fails E then raise OSError else write_file path pdf.

Definition create_pdf (results : list row) (query : string) : M string :=
  let pdf := pdf_document results query in
  let pdf_path := "pincode_results_" +:+ query +:+ ".pdf" in
  pdf_output pdf_path pdf ;;
  mret pdf_path.

Definition reply_text (text : string) (parse_mode : option string)
    (reply_markup : option (list (list button))) (no_preview : bool) : M unit :=
  send (ReplyText text parse_mode reply_markup no_preview).

Definition reply_document (content : document) (caption filename : string) : M unit :=
  if reply_document_fails E then raise TelegramError
  else send (ReplyDocument content caption filename).

(** One turn of the loop of [handle_search] over [enumerate(results[:5])]. *)
Definition send_result (query : string) (results : list row) (ir : nat * row) : M unit :=
  let '(i, result) := ir in
  let reply := format_result result (Some i) in
  let '(reply, reply_markup) :=
    if (Z.of_nat i =? Z.of_nat (length (take 5 results)) - 1)
    then
      let reply :=
        if (5 <? length results)%nat
        then reply +:+ nl +:+ nl +:+ "ℹ️ Showing 5 of "
               +:+ Text.str_int (Z.of_nat (length results)) +:+ " results."
        else reply in
      (reply +:+ nl +:+ nl +:+ "📄 You can export all results to PDF:",
       Some [[ {| label := "Export to PDF";
                  callback_data := "pdf_export:" +:+ query |} ]])
    else (reply, None) in
  reply_text reply (Some "HTML") reply_markup true.

(** [handle_search] with the search it calls as a parameter. *)
Definition handle_search_with (search : string -> M (list row))
    (uid : Z) (text : string) : M unit :=
  let query := Text.strip text in
  if decide (query = "") then
    reply_text "Please enter a pincode or location name to search." None None false
  else
    results ← search query;
    match results with
    | [] => reply_text "❌ No results found. Please try a different query." None None false
    | _ :: _ =>
        set_session uid (fun s => {| last_results := Some results; last_query := last_query s |}) ;;
        set_session uid (fun s => {| last_results := last_results s; last_query := Some query |}) ;;
        for_each (enumerate (take 5 results)) (send_result query results) ;;
        if (5 <? length results)%nat then
          reply_text ("ℹ️ There are more results ("
                        +:+ Text.str_int (Z.of_nat (length results))
                        +:+ " total). Please refine your search for better results.")
                     (Some "HTML") None false
        else mret tt
    end.

Definition handle_search : Z -> string -> M unit :=
  handle_search_with search_pincode.

(** [l[1]] *)
Definition item1 (l : list string) : M string :=
  match l !! 1%nat with
  | Some x => mret x
  | None => raise IndexError
  end.

Definition export_pdf (uid : Z) (data : string) : M unit :=
  send Answer ;;
  original_query ← item1 (Text.split_once ":" data);
  s ← get_session uid;
  let results := default [] (last_results s) in
  match results with
  | [] => send (EditMessageText
            "Sorry, I couldn't find those results anymore. Please perform a new search.")
  | _ :: _ =>
      try_except
        (pdf_path ← create_pdf results original_query;
         pdf_file ← open_rb pdf_path;
         reply_document pdf_file
           ("Here are the pincode results for '" +:+ original_query +:+ "'")
           ("pincode_results_" +:+ original_query +:+ ".pdf") ;;
         os_remove pdf_path)
        is_Exception
        (fun e =>
           logger_error "Error generating PDF: " e ;;
           reply_text "❌ Sorry, there was an error generating the PDF. Please try again."
                      None None false)
  end.

(** [CallbackQueryHandler(export_pdf, pattern=r'^pdf_export:')] *)
Definition on_callback_query (uid : Z) (data : string) : M unit :=
  if Text.startswith "pdf_export:" data then export_pdf uid data else mret tt.

End Bot.

(** ** Sample data *)

Definition new_delhi_gpo : row := {|
  circlename := "Delhi"; regionname := "Delhi"; divisionname := "New Delhi Central";
  officename := "New Delhi GPO"; pincode := 110001; officetype := "HO";
  delivery := "Delivery"; district := "New Delhi"; statename := "Delhi";
  latitude := Num "28.63"; longitude := Num "77.21" |}.

Definition anna_nagar_east : row := {|
  circlename := "Tamilnadu"; regionname := "Chennai City Region";
  divisionname := "Chennai City Central"; officename := "Anna Nagar (East)";
  pincode := 600102; officetype := "SO"; delivery := "Delivery";
  district := "Chennai"; statename := "Tamil Nadu";
  latitude := NaN; longitude := NaN |}.

Definition quiet : env :=
  {| re_beyond := fun _ => None; output_fails := false; reply_document_fails := false |}.

Definition world0 : world :=
  {| log := []; sent := []; user_data := ∅; files := ∅ |}.

(** ** Vocabulary of the statements *)

(** The row test of the name search, for a test [found] of one cell. *)
Definition name_match (found : string -> bool) (r : row) : bool :=
  found (Text.lower (officename r))
  || found (Text.lower (district r))
  || found (Text.lower (statename r)).

(** The nine fields of a result in the order the specification fixes:
    the key of the icon, the label and the value. *)
Definition fields (result : row) : list (string * string * string) :=
  [ ("pincode", "Pincode", Text.str_int (pincode result));
    ("office", "Office", officename result);
    ("type", "Type", officetype result);
    ("delivery", "Delivery", delivery result);
    ("circle", "Circle", circlename result);
    ("region", "Region", regionname result);
    ("division", "Division", divisionname result);
    ("district", "District", district result);
    ("state", "State", statename result) ].

(** A field of the chat message: icon, label in bold, value. *)
Definition text_field (f : string * string * string) : string :=
  let '(key, label, value) := f in
  icon key +:+ " <b>" +:+ label +:+ ":</b> " +:+ value.

(** A field of the document: label and value. *)
Definition plain_field (f : string * string * string) : string :=
  let '(_, label, value) := f in label +:+ ": " +:+ value.

Definition result_header (index : option nat) : list string :=
  match index with
  | Some i => ["🔹 <b>Result " +:+ Text.str_int (Z.of_nat i + 1) +:+ "</b>"]
  | None => []
  end.

Definition map_link (lat lon : string) : string :=
  "https://www.google.com/maps?q=" +:+ lat +:+ "," +:+ lon.

Definition pdf_title (query : string) : document :=
  [ AddPage; SetFont "Arial" "" 12; SetFont "Arial" "B" 16;
    Cell 200 10 "Indian Pincode Search Results" 1 "C";
    SetFont "Arial" "" 12;
    Cell 200 10 ("Search Query: " +:+ query) 1 "C";
    Ln 10 ].

(** The block of one result: its heading, the nine fields, the map link
    when both coordinates are there, and the gap that ends it. *)
Definition pdf_block (i : nat) (result : row) : document :=
  [ SetFont "Arial" "B" 12;
    Cell 200 10 ("Result " +:+ Text.str_int (Z.of_nat i + 1)) 1 "";
    SetFont "Arial" "" 12 ]
  ++ map (fun f => Cell 200 10 (plain_field f) 1 "") (fields result)
  ++ match latitude result, longitude result with
     | Num lat, Num lon =>
         [Cell 200 10 ("Google Maps: " +:+ map_link lat lon) 1 ""]
     | _, _ => []
     end
  ++ [Ln 5].

Definition prompt_message : outgoing :=
  ReplyText "Please enter a pincode or location name to search." None None false.

Definition no_results_message : outgoing :=
  ReplyText "❌ No results found. Please try a different query." None None false.

Definition more_results_message (n : nat) : outgoing :=
  ReplyText ("ℹ️ There are more results (" +:+ Text.str_int (Z.of_nat n)
               +:+ " total). Please refine your search for better results.")
            (Some "HTML") None false.

Definition export_button (query : string) : list (list button) :=
  [[ {| label := "Export to PDF"; callback_data := "pdf_export:" +:+ query |} ]].

Definition showing_notice (n : nat) : string :=
  nl +:+ nl +:+ "ℹ️ Showing 5 of " +:+ Text.str_int (Z.of_nat n) +:+ " results.".

Definition export_prompt : string :=
  nl +:+ nl +:+ "📄 You can export all results to PDF:".

(** The message sent for result [i] of a search with these results. *)
Definition result_message (query : string) (results : list row)
    (i : nat) (result : row) : outgoing :=
  if decide (S i = length (take 5 results)) then
    ReplyText
      (format_result result (Some i)
         +:+ (if (5 <? length results)%nat then showing_notice (length results) else "")
         +:+ export_prompt)
      (Some "HTML") (Some (export_button query)) true
  else ReplyText (format_result result (Some i)) (Some "HTML") None true.

(** The world after more calls on the transport. *)
Definition with_sent (w : world) (more : list outgoing) : world :=
  {| log := log w; sent := sent w ++ more;
     user_data := user_data w; files := files w |}.

Definition search_again_message : outgoing :=
  EditMessageText
    "Sorry, I couldn't find those results anymore. Please perform a new search.".

Definition export_failed_message : outgoing :=
  ReplyText "❌ Sorry, there was an error generating the PDF. Please try again."
            None None false.

Definition export_path (query : string) : string :=
  "pincode_results_" +:+ query +:+ ".pdf".

(** The transport refuses the document. *)
Definition send_refused : env :=
  {| re_beyond := fun _ => None; output_fails := false; reply_document_fails := true |}.

(** ** Loading the data *)

Definition required_columns : list string :=
  [ "circlename"; "regionname"; "divisionname"; "officename";
    "pincode"; "officetype"; "delivery"; "district";
    "statename"; "latitude"; "longitude" ].

(** [for col in required: if col not in columns: raise ...]: the column
    the loop stops at, if any. *)
Fixpoint first_missing (required columns : list string) : option string :=
  match required with
  | [] => None
  | col :: rest =>
      if existsb (String.eqb col) columns
      then first_missing rest columns
      else Some col
  end.

(** The [try] at the top of the module.  [read] is what [pd.read_csv]
    gives: the column names of the file, or nothing when it raises.  The
    outcome is the column names of the frame the module keeps. *)
Definition load_columns (read : option (list string)) : M (list string) :=
  try_except
    (match read with
     | None => raise OSError
     | Some columns =>
         let columns := map Text.lower columns in
         match first_missing required_columns columns with
         | Some _ => raise ValueError
         | None => mret columns
         end
     end)
    is_Exception
    (fun e => logger_error "Error loading pincode data: " e ;; raise e).

(** The keyboard attached to a call on the transport, if any. *)
Definition markup_of (o : outgoing) : option (list (list button)) :=
  match o with
  | ReplyText _ _ reply_markup _ => reply_markup
  | _ => None
  end.

(** [pdf.output] fails. *)
Definition disk_full : env :=
  {| re_beyond := fun _ => None; output_fails := true; reply_document_fails := false |}.

(** ** Facts about text *)

Module TextFacts.
Import Text.

Lemma app_nil_l (s : string) : "" +:+ s = s.
Proof. reflexivity. Qed.

Lemma app_cons (c : ascii) (s t : string) :
  String c s +:+ t = String c (s +:+ t).
Proof. reflexivity. Qed.

Lemma app_nil_r (s : string) : s +:+ "" = s.
Proof.
  induction s as [|c s IH]; [reflexivity |].
  rewrite app_cons. now f_equal.
Qed.

Lemma app_assoc (a b c : string) : (a +:+ b) +:+ c = a +:+ (b +:+ c).
Proof.
  induction a as [|x a IH]; [reflexivity |].
  rewrite !app_cons. now f_equal.
Qed.

Lemma lstrip_head (s : string) :
  lstrip s = "" \/ exists c t, lstrip s = String c t /\ isspace c = false.
Proof.
  induction s as [|c s IH]; simpl; [now left |].
  destruct (isspace c) eqn:Hc; [exact IH |].
  right. now exists c, s.
Qed.

Lemma rstrip_head (c : ascii) (t : string) :
  isspace c = false -> exists u, rstrip (String c t) = String c u.
Proof.
  intros Hc. simpl. destruct (rstrip t) as [|d u]; rewrite ?Hc; eauto.
Qed.

Lemma rstrip_idem (s : string) : rstrip (rstrip s) = rstrip s.
Proof.
  induction s as [|c s IH]; simpl; [reflexivity |].
  destruct (rstrip s) as [|d u] eqn:Hs.
  - destruct (isspace c) eqn:Hc; simpl; [reflexivity | now rewrite Hc].
  - change (rstrip (String c (String d u))) with
      (match rstrip (String d u) with
       | "" => if isspace c then "" else String c ""
       | String e v => String c (String e v)
       end).
    now rewrite IH.
Qed.

Lemma lstrip_fixed (c : ascii) (t : string) :
  isspace c = false -> lstrip (String c t) = String c t.
Proof. intros Hc. simpl. now rewrite Hc. Qed.

(** Stripping twice strips once: a stripped text is its own strip. *)
Lemma strip_idem (s : string) : strip (strip s) = strip s.
Proof.
  unfold strip.
  destruct (lstrip_head s) as [Hs | (c & t & Hs & Hc)]; rewrite Hs.
  - reflexivity.
  - destruct (rstrip_head c t Hc) as (u & Hu).
    rewrite Hu, (lstrip_fixed c u Hc), <- Hu. apply rstrip_idem.
Qed.

Lemma lstrip_all_space (s : string) :
  all isspace s = true -> lstrip s = "".
Proof.
  induction s as [|c s IH]; simpl; [reflexivity |].
  intros H. apply andb_true_iff in H as [Hc Hs]. rewrite Hc. now apply IH.
Qed.

(** A text of whitespace only strips to the empty text. *)
Lemma strip_all_space (s : string) :
  all isspace s = true -> strip s = "".
Proof. intros H. unfold strip. now rewrite lstrip_all_space. Qed.

Lemma rstrip_empty (s : string) :
  rstrip s = "" -> all isspace s = true.
Proof.
  induction s as [|c s IH]; simpl; [reflexivity |].
  destruct (rstrip s) as [|d u]; [| discriminate].
  destruct (isspace c); [intros _; now rewrite IH | discriminate].
Qed.

Lemma strip_empty (s : string) :
  strip s = "" -> all isspace s = true.
Proof.
  unfold strip. intros H. apply rstrip_empty in H. revert H.
  induction s as [|c s IH]; simpl; [reflexivity |].
  destruct (isspace c) eqn:Hc; [exact IH |].
  simpl. now rewrite Hc.
Qed.

End TextFacts.

Example py_int_literals :
  PyInt.py_int "110001" = Some 110001 /\ PyInt.py_int "  -42 " = Some (-42)
  /\ PyInt.py_int "1_000" = Some 1000 /\ PyInt.py_int "0012" = Some 12
  /\ PyInt.py_int "delhi" = None /\ PyInt.py_int "1__0" = None
  /\ PyInt.py_int "+ 1" = None /\ PyInt.py_int "" = None
  /\ PyInt.py_int "12_" = None.
Proof. repeat split; reflexivity. Qed.

(** A separator character before the digits: [str.strip] removes it,
    [int] does not skip it. *)
Example py_int_separator :
  PyInt.py_int (String "028" "110001") = None
  /\ Text.strip (String "028" "110001") = "110001".
Proof. split; reflexivity. Qed.

Example py_int_digit_limit :
  (exists n, PyInt.py_int (string_of_list_ascii (replicate 4300 "1"%char)) = Some n)
  /\ PyInt.py_int (string_of_list_ascii (replicate 4301 "1"%char)) = None.
Proof. split; [eexists |]; vm_compute; reflexivity. Qed.

Example parse_delhi :
  Regex.parse_pattern "ab" = Regex.Pattern (Regex.Cat (Regex.Chr "a") (Regex.Cat (Regex.Chr "b") Regex.Eps)).
Proof. reflexivity. Qed.
Example parse_alt :
  Regex.parse_pattern "a|b.|c" =
  Regex.Pattern (Regex.Alt (Regex.Cat (Regex.Chr "a") Regex.Eps)
                 (Regex.Alt (Regex.Cat (Regex.Chr "b") (Regex.Cat Regex.Dot Regex.Eps))
                            (Regex.Cat (Regex.Chr "c") Regex.Eps))).
Proof. reflexivity. Qed.
Example parse_errs :
  Regex.parse_pattern "(" = Regex.BadPattern /\ Regex.parse_pattern "a)" = Regex.BadPattern
  /\ Regex.parse_pattern "*a" = Regex.BadPattern /\ Regex.parse_pattern "a|+" = Regex.BadPattern
  /\ Regex.parse_pattern "a\" = Regex.BadPattern /\ Regex.parse_pattern "a[b" = Regex.Beyond
  /\ Regex.parse_pattern "a**" = Regex.Beyond /\ Regex.parse_pattern "\d" = Regex.Beyond.
Proof. repeat split; reflexivity. Qed.
Example search_group :
  match Regex.parse_pattern "nagar (east)" with
  | Regex.Pattern r => Regex.search r "anna nagar (east)" = false /\ Regex.search r "anna nagar east" = true
  | _ => False end.
Proof. vm_compute. split; reflexivity. Qed.
Example search_quant :
  match Regex.parse_pattern "ab*?c+(d|e)?f" with
  | Regex.Pattern r => Regex.search r "xxacccf" = true /\ Regex.search r "xxabbbcef" = true /\ Regex.search r "xxabbbf" = false
  | _ => False end.
Proof. vm_compute. repeat split; reflexivity. Qed.

Example scenario1 :
  search_pincode quiet [anna_nagar_east; new_delhi_gpo] "110001" world0 = (Ok [new_delhi_gpo], world0).
Proof. vm_compute. reflexivity. Qed.
Example scenario2 :
  search_pincode quiet [anna_nagar_east; new_delhi_gpo] "Delhi" world0 = (Ok [new_delhi_gpo], world0).
Proof. vm_compute. reflexivity. Qed.
Example scenario3 :
  search_pincode quiet [anna_nagar_east; new_delhi_gpo] "999999" world0 = (Ok [], world0).
Proof. vm_compute. reflexivity. Qed.

(** ** Searching by pincode *)

Lemma boolean_index_map (f : row -> bool) (df : DataFrame) :
  boolean_index df (map f df) = List.filter f df.
Proof.
  induction df as [|r df IH]; simpl; [reflexivity |].
  destruct (f r); now rewrite IH.
Qed.

Lemma filter_sublist {A} (f : A -> bool) (l : list A) :
  sublist (List.filter f l) l.
Proof.
  induction l as [|x l IH]; simpl; [constructor |].
  destruct (f x); now constructor.
Qed.

Lemma search_body_pincode E df query n w :
  PyInt.py_int query = Some n ->
  search_body E df query w =
    (Ok (List.filter (fun r => pincode r =? n) df), w).
Proof.
  intros Hn.
  unfold search_body, try_except, mbind, M_bind, int_, mret, M_ret.
  rewrite Hn. now rewrite boolean_index_map.
Qed.

(** C1. When [int(query)] succeeds with [n], [search_pincode] returns the
    rows of the frame whose pincode is [n], each as often as the frame
    has it and in the frame's order, and it logs nothing. *)
Theorem search_by_pincode E df query n w :
  PyInt.py_int query = Some n ->
  exists results,
    search_pincode E df query w = (Ok results, w)
    /\ results = List.filter (fun r => pincode r =? n) df
    /\ (forall r, In r results <-> In r df /\ pincode r = n)
    /\ sublist results df.
Proof.
  intros Hn. eexists. split; [| split; [reflexivity | split]].
  - unfold search_pincode, try_except.
    now rewrite (search_body_pincode E df query n w Hn).
  - intros r. rewrite filter_In. now rewrite Z.eqb_eq.
  - apply filter_sublist.
Qed.

Lemma search_by_pincode_witness :
  PyInt.py_int "110001" = Some 110001
  /\ search_pincode quiet [anna_nagar_east; new_delhi_gpo] "110001" world0
     = (Ok [new_delhi_gpo], world0).
Proof.
  split; [reflexivity |].
  destruct (search_by_pincode quiet [anna_nagar_east; new_delhi_gpo]
              "110001" 110001 world0 eq_refl) as (results & Hrun & Hres & _).
  rewrite Hrun, Hres. reflexivity.
Defined.

(** ** The outer [try] of the search *)

Lemma str_contains_world E column pat w :
  snd (str_contains E column pat w) = w.
Proof. unfold str_contains. now destruct (Regex.compile _ pat). Qed.

Lemma search_body_world E df query w :
  snd (search_body E df query w) = w.
Proof.
  unfold search_body, try_except, mbind, M_bind, int_, str_contains.
  destruct (PyInt.py_int query); simpl; [reflexivity |].
  now destruct (Regex.compile _ _).
Qed.

Lemma search_pincode_never_raises_aux E df query w :
  search_pincode E df query w = (Ok (match fst (search_body E df query w) with
                                     | Ok rows => rows | Raise _ => [] end), w)
  \/ exists e, search_pincode E df query w
               = (Ok [], snd (logger_error "Error in search: " e w)).
Proof.
  unfold search_pincode, try_except.
  pose proof (search_body_world E df query w) as Hw.
  destruct (search_body E df query w) as [[rows | e] w1]; simpl in *; subst w1.
  - now left.
  - right. now exists e.
Qed.

(** C3. [search_pincode] returns a list for every query and every frame:
    what the body of its [try] computed when that raised nothing, and
    otherwise the empty list, after one line written to the log. *)
Theorem search_pincode_never_raises E df query w :
  exists results w',
    search_pincode E df query w = (Ok results, w')
    /\ match fst (search_body E df query w) with
       | Ok rows => results = rows /\ w' = w
       | Raise e =>
           results = []
           /\ w' = snd (logger_error "Error in search: " e w)
       end.
Proof.
  unfold search_pincode, try_except.
  pose proof (search_body_world E df query w) as Hw.
  destruct (search_body E df query w) as [[rows | e] w1]; simpl in *; subst w1.
  - now exists rows, w.
  - eexists [], _. repeat split.
Qed.

(** A pattern that [re.compile] rejects: the search logs it and finds
    nothing. *)
Example search_unbalanced :
  search_pincode quiet [anna_nagar_east] "(east" world0
  = (Ok [], {| log := [("Error in search: ", ReError)]; sent := [];
               user_data := ∅; files := ∅ |}).
Proof. vm_compute. reflexivity. Qed.

(** ** Patterns without special characters *)

Module RegexFacts.
Import Text Regex.

Lemma app_eq_nil (s1 s2 : string) : s1 +:+ s2 = "" -> s1 = "" /\ s2 = "".
Proof.
  destruct s1 as [|c s1]; [intros H; now rewrite TextFacts.app_nil_l in H |].
  rewrite TextFacts.app_cons. discriminate.
Qed.

Lemma nullable_matches (r : regex) : nullable r = true <-> matches r "".
Proof.
  induction r as [| | c | | r1 IH1 r2 IH2 | r1 IH1 r2 IH2 | r IH]; simpl.
  - split; [discriminate | inversion 1].
  - split; [intros _; constructor | reflexivity].
  - split; [discriminate | inversion 1].
  - split; [discriminate | inversion 1].
  - rewrite andb_true_iff, IH1, IH2. split.
    + intros [H1 H2]. exact (MCat _ _ "" "" H1 H2).
    + intros H. inversion H as [| | | ? ? s1 s2 H1 H2 | | | |]; subst.
      match goal with Happ : _ +:+ _ = "" |- _ =>
        apply app_eq_nil in Happ as [-> ->] end.
      now split.
  - rewrite orb_true_iff, IH1, IH2. split.
    + intros [H | H]; [now apply MAltL | now apply MAltR].
    + inversion 1; subst; [now left | now right].
  - split; [intros _; constructor | reflexivity].
Qed.

(** A match of [Star r] on a text that starts with [c] begins with a
    match of [r] that starts with [c]. *)
Lemma matches_star_cons (r : regex) (c : ascii) (s : string) :
  matches (Star r) (String c s) ->
  exists s1 s2,
    s = s1 +:+ s2 /\ matches r (String c s1) /\ matches (Star r) s2.
Proof.
  intros H. remember (Star r) as r' eqn:Hr. remember (String c s) as t eqn:Ht.
  revert s Ht.
  induction H as [| | | | | | | r0 t1 t2 H1 _ H2 IH2]; intros u Ht;
    try discriminate.
  injection Hr as ->.
  destruct t1 as [|d t1].
  - rewrite TextFacts.app_nil_l in Ht. now apply IH2.
  - rewrite TextFacts.app_cons in Ht. injection Ht as -> <-.
    now exists t1, t2.
Qed.

Lemma deriv_matches (c : ascii) (r : regex) (s : string) :
  matches (deriv c r) s <-> matches r (String c s).
Proof.
  revert s.
  induction r as [| | d | | r1 IH1 r2 IH2 | r1 IH1 r2 IH2 | r IH];
    intros s; simpl.
  - split; inversion 1.
  - split; inversion 1.
  - destruct (Ascii.eqb_spec c d) as [-> | Hcd]; split.
    + inversion 1. constructor.
    + inversion 1. constructor.
    + inversion 1.
    + inversion 1; subst. contradiction.
  - destruct (Ascii.eqb_spec c newline) as [-> | Hc]; split.
    + inversion 1.
    + inversion 1; subst. contradiction.
    + inversion 1. now constructor.
    + inversion 1. constructor.
  - assert (Hleft : matches (Cat (deriv c r1) r2) s ->
                    matches (Cat r1 r2) (String c s)).
    { inversion 1 as [| | | ? ? s1 s2 H1 H2 | | | |]; subst.
      apply IH1 in H1. exact (MCat _ _ _ _ H1 H2). }
    assert (Hsplit : matches (Cat r1 r2) (String c s) ->
                     (matches (Cat (deriv c r1) r2) s
                      \/ (matches r1 "" /\ matches (deriv c r2) s))).
    { intros H. inversion H as [| | | ? ? s1 s2 H1 H2 | | | |]; subst.
      match goal with Happ : _ +:+ _ = String c s |- _ => rename Happ into Ht end.
      destruct s1 as [|d s1].
      - right. split; [exact H1 |]. apply IH2.
        rewrite TextFacts.app_nil_l in Ht. now rewrite <- Ht.
      - rewrite TextFacts.app_cons in Ht. injection Ht as -> <-.
        left. apply IH1 in H1. now constructor. }
    destruct (nullable r1) eqn:Hn.
    + split.
      * inversion 1; subst; [now apply Hleft |].
        apply (MCat r1 r2 "" (String c s)); [now apply nullable_matches | now apply IH2].
      * intros H. destruct (Hsplit H) as [H' | [_ H']];
          [now apply MAltL | now apply MAltR].
    + split; [exact Hleft |].
      intros H. destruct (Hsplit H) as [H' | [H' _]]; [exact H' |].
      apply nullable_matches in H'. congruence.
  - split.
    + inversion 1; subst; [apply MAltL | apply MAltR]; [now apply IH1 | now apply IH2].
    + inversion 1; subst; [apply MAltL | apply MAltR]; [now apply IH1 | now apply IH2].
  - split.
    + inversion 1 as [| | | ? ? s1 s2 H1 H2 | | | |]; subst.
      apply IH in H1. exact (MStarS r (String c s1) s2 H1 H2).
    + intros H. destruct (matches_star_cons r c s H) as (s1 & s2 & -> & H1 & H2).
      constructor; [now apply IH | exact H2].
Qed.

(** [match_prefix] finds exactly the texts with a prefix in the language. *)
Lemma match_prefix_matches (r : regex) (s : string) :
  match_prefix r s = true
  <-> exists s1 s2, s = s1 +:+ s2 /\ matches r s1.
Proof.
  revert r. induction s as [|c s IH]; intros r; simpl.
  - rewrite orb_false_r, nullable_matches. split.
    + intros H. now exists "", "".
    + intros (s1 & s2 & Happ & H). symmetry in Happ.
      apply app_eq_nil in Happ as [-> _]. exact H.
  - rewrite orb_true_iff, nullable_matches, IH. split.
    + intros [H | (s1 & s2 & -> & H)].
      * now exists "", (String c s).
      * exists (String c s1), s2. split; [reflexivity | now apply deriv_matches].
    + intros (s1 & s2 & Happ & H). destruct s1 as [|d s1]; [now left |].
      rewrite TextFacts.app_cons in Happ. injection Happ as <- ->.
      right. exists s1, s2. split; [reflexivity | now apply deriv_matches].
Qed.

(** [search] finds exactly the texts with a piece in the language. *)
Lemma search_matches (r : regex) (s : string) :
  search r s = true
  <-> exists s0 s1 s2, s = s0 +:+ s1 +:+ s2 /\ matches r s1.
Proof.
  induction s as [|c s IH]; cbn [search].
  - rewrite orb_false_r, match_prefix_matches. split.
    + intros (s1 & s2 & Happ & H). now exists "", s1, s2.
    + intros (s0 & s1 & s2 & Happ & H). symmetry in Happ.
      apply app_eq_nil in Happ as [_ Happ].
      apply app_eq_nil in Happ as [-> _]. now exists "", "".
  - rewrite orb_true_iff, match_prefix_matches, IH. split.
    + intros [(s1 & s2 & Happ & H) | (s0 & s1 & s2 & -> & H)].
      * now exists "", s1, s2.
      * now exists (String c s0), s1, s2.
    + intros (s0 & s1 & s2 & Happ & H). destruct s0 as [|d s0].
      * left. now exists s1, s2.
      * rewrite TextFacts.app_cons in Happ. injection Happ as <- ->.
        right. now exists s0, s1, s2.
Qed.

Lemma match_prefix_Alt (a b : regex) (s : string) :
  match_prefix (Alt a b) s = match_prefix a s || match_prefix b s.
Proof.
  revert a b. induction s as [|c s IH]; intros a b; simpl.
  - now rewrite !orb_false_r.
  - rewrite IH.
    now destruct (nullable a), (nullable b),
      (match_prefix (deriv c a) s), (match_prefix (deriv c b) s).
Qed.

Lemma match_prefix_Void (r : regex) (s : string) :
  match_prefix (Cat Void r) s = false.
Proof. induction s as [|c s IH]; simpl; [reflexivity | exact IH]. Qed.

Lemma match_prefix_Eps (r : regex) (s : string) :
  match_prefix (Cat Eps r) s = match_prefix r s.
Proof.
  destruct s as [|c s]; simpl; [reflexivity |].
  now rewrite match_prefix_Alt, match_prefix_Void.
Qed.

Lemma match_prefix_literal (p s : string) :
  match_prefix (literal p) s = startswith p s.
Proof.
  unfold literal. revert s. induction p as [|c p IH]; intros s.
  - now destruct s.
  - destruct s as [|d s]; simpl; [reflexivity |].
    rewrite (Ascii.eqb_sym d c).
    destruct (Ascii.eqb c d).
    + now rewrite match_prefix_Eps.
    + apply match_prefix_Void.
Qed.

Lemma search_literal (p s : string) :
  search (literal p) s = contains p s.
Proof.
  induction s as [|d s IH]; cbn [search contains];
    rewrite match_prefix_literal; [reflexivity |].
  now rewrite IH.
Qed.

Lemma parse_plain_char (c : ascii) (p : string) stack cur :
  special c = false ->
  parse stack cur (String c p) = parse stack (push (Chr c) cur) p.
Proof.
  destruct c as [[] [] [] [] [] [] [] []]; intros Hc;
    solve [discriminate Hc | reflexivity].
Qed.

Lemma parse_plain (p : string) stack cur :
  plain p = true ->
  parse stack cur p = parse stack (push_literal p cur) "".
Proof.
  revert cur. induction p as [|c p IH]; intros cur Hp; [reflexivity |].
  simpl in Hp. apply andb_true_iff in Hp as [Hc Hp].
  apply negb_true_iff in Hc.
  rewrite (parse_plain_char c p stack cur Hc). now apply IH.
Qed.

Lemma seq_of_push_literal (p : string) (f : frame) (r : regex) :
  fold_left (fun acc it => Cat (fst it) acc) (items (push_literal p f)) r
  = fold_left (fun acc it => Cat (fst it) acc) (items f) (literal_then p r).
Proof.
  revert f r. induction p as [|c p IH]; intros f r; [reflexivity |].
  simpl. now rewrite IH.
Qed.

Lemma alts_push_literal (p : string) (f : frame) :
  alts (push_literal p f) = alts f.
Proof. revert f. induction p as [|c p IH]; intros f; [reflexivity | simpl; now rewrite IH]. Qed.

Lemma parse_pattern_plain (p : string) :
  plain p = true -> parse_pattern p = Pattern (literal p).
Proof.
  intros Hp. unfold parse_pattern. rewrite (parse_plain p [] empty_frame Hp).
  simpl. unfold alt_of, seq_of.
  now rewrite alts_push_literal, seq_of_push_literal.
Qed.

Lemma compile_plain re_beyond (p : string) :
  plain p = true ->
  exists found,
    compile re_beyond p = Some found /\ forall s, found s = contains p s.
Proof.
  intros Hp. unfold compile. rewrite (parse_pattern_plain p Hp).
  eexists. split; [reflexivity |]. apply search_literal.
Qed.

End RegexFacts.

(** ** Searching by name *)

Lemma boolean_index_or3 (f : string -> bool) (df : DataFrame) :
  boolean_index df
    (series_or (series_or (map f (map officename df)) (map f (map district df)))
               (map f (map statename df)))
  = List.filter (fun r => f (officename r) || f (district r) || f (statename r)) df.
Proof.
  induction df as [|r df IH]; simpl; [reflexivity |].
  rewrite IH. reflexivity.
Qed.

(** What the code does on the name path: the lower-cased query is a
    regular expression, searched in the three lower-cased cells. *)
Lemma search_by_name E df query w found :
  PyInt.py_int query = None ->
  Regex.compile (re_beyond E) (Text.lower query) = Some found ->
  search_pincode E df query w = (Ok (List.filter (name_match found) df), w).
Proof.
  intros Hint Hre.
  unfold search_pincode, search_body, try_except, mbind, M_bind, int_,
    str_contains, mret, M_ret.
  rewrite Hint. simpl. rewrite Hre.
  now rewrite (boolean_index_or3 (fun cell => found (Text.lower cell))).
Qed.

Lemma search_by_name_error E df query w :
  PyInt.py_int query = None ->
  Regex.compile (re_beyond E) (Text.lower query) = None ->
  search_pincode E df query w
  = (Ok [], snd (logger_error "Error in search: " ReError w)).
Proof.
  intros Hint Hre.
  unfold search_pincode, search_body, try_except, mbind, M_bind, int_,
    str_contains, mret, M_ret.
  rewrite Hint. simpl. now rewrite Hre.
Qed.

(** A query without special characters is searched as plain text. *)
Lemma search_by_name_plain E df query w :
  PyInt.py_int query = None ->
  Regex.plain (Text.lower query) = true ->
  search_pincode E df query w
  = (Ok (List.filter (name_match (Text.contains (Text.lower query))) df), w).
Proof.
  intros Hint Hplain.
  destruct (RegexFacts.compile_plain (re_beyond E) _ Hplain)
    as (found & Hre & Hfound).
  rewrite (search_by_name E df query w found Hint Hre).
  do 2 f_equal. apply filter_ext. intros r. unfold name_match.
  now rewrite !Hfound.
Qed.

(** C2, at a query with a parenthesis.  The office name of the row
    contains the query when both are lower-cased, and the row is not
    returned: the query is compiled as a regular expression, in which
    the parentheses form a group. *)
Theorem search_by_name_reads_query_as_regex E w :
  PyInt.py_int "nagar (east)" = None
  /\ name_match (Text.contains (Text.lower "nagar (east)")) anna_nagar_east = true
  /\ search_pincode E [anna_nagar_east] "nagar (east)" w = (Ok [], w).
Proof.
  split; [reflexivity | split; [reflexivity |]].
  now rewrite (search_by_name E [anna_nagar_east] "nagar (east)" w _
                 eq_refl eq_refl).
Qed.

(** ** Rendering one result as text *)

(** C4. For every row and index, the text of [format_result] is the
    lines below joined by newlines: the header when an index is given,
    the nine labelled fields in the order pincode, office, type,
    delivery, circle, region, division, district, state, and then the
    line with the map link exactly when neither coordinate is NaN. *)
Theorem format_result_fields (result : row) (index : option nat) :
  format_result result index = Text.join nl (format_lines result index)
  /\ length (fields result) = 9%nat
  /\ map (fun f => snd (fst f)) (fields result)
     = ["Pincode"; "Office"; "Type"; "Delivery"; "Circle"; "Region";
        "Division"; "District"; "State"]
  /\ format_lines result index
     = result_header index
       ++ map text_field (fields result)
       ++ match latitude result, longitude result with
          | Num lat, Num lon =>
              [icon "location" +:+ " <a href='" +:+ map_link lat lon
                 +:+ "'>View on Google Maps</a>"]
          | _, _ => []
          end.
Proof.
  split; [reflexivity | split; [reflexivity | split; [reflexivity |]]].
  unfold format_lines, has_coordinates, maps_url, map_link.
  destruct index as [i|], (latitude result) as [|lat],
    (longitude result) as [|lon]; reflexivity.
Qed.

(** ** Rendering the results as a document *)

Lemma pdf_result_block (pdf : document) (i : nat) (result : row) :
  pdf_result pdf (i, result) = pdf ++ pdf_block i result.
Proof.
  unfold pdf_result, pdf_block, has_coordinates, maps_url, map_link.
  destruct (latitude result) as [|lat], (longitude result) as [|lon];
    cbn [fold_left notna andb fields map str_float plain_field];
    rewrite <- ?app_assoc; reflexivity.
Qed.

Lemma pdf_loop_blocks (results : list row) (k : nat) (pdf : document) :
  fold_left pdf_result (enumerate_from k results) pdf
  = pdf ++ concat (imap (fun i => pdf_block (k + i)) results).
Proof.
  revert k pdf. induction results as [|r results IH]; intros k pdf.
  - simpl. now rewrite app_nil_r.
  - cbn [enumerate_from fold_left imap concat].
    rewrite pdf_result_block, IH, <- app_assoc, Nat.add_0_r.
    do 3 f_equal. apply imap_ext. intros i x _. simpl.
    now rewrite Nat.add_succ_r.
Qed.

(** C5. For every list of results, however long, the document that
    [create_pdf] hands to [pdf.output] is the title followed by one
    block per result, in the order of the list, block [i] being the
    block of result [i]: heading, the nine plain fields, the map link
    when both coordinates are there.  The file written holds that
    document. *)
Theorem create_pdf_one_block_per_result E (results : list row) (query : string) w :
  let blocks := imap pdf_block results in
  let pdf_path := "pincode_results_" +:+ query +:+ ".pdf" in
  pdf_document results query = pdf_title query ++ concat blocks
  /\ length blocks = length results
  /\ (forall i, blocks !! i = pdf_block i <$> results !! i)
  /\ create_pdf E results query w
     = if output_fails E then (Raise OSError, w)
       else (Ok pdf_path,
             {| log := log w; sent := sent w; user_data := user_data w;
                files := <[pdf_path := pdf_title query ++ concat blocks]> (files w) |}).
Proof.
  assert (Hdoc : pdf_document results query
                 = pdf_title query ++ concat (imap pdf_block results)).
  { unfold pdf_document, enumerate. now rewrite pdf_loop_blocks. }
  cbv zeta. split; [exact Hdoc | split; [apply length_imap | split]].
  - intros i. apply list_lookup_imap.
  - unfold create_pdf, pdf_output, mbind, M_bind, raise, write_file.
    rewrite Hdoc. now destruct (output_fails E).
Qed.

Example scenario5_document :
  length (imap pdf_block (replicate 7 new_delhi_gpo)) = 7%nat
  /\ length (pdf_document (replicate 7 new_delhi_gpo) "delhi") = (7 + 7 * 14)%nat
  /\ pdf_document [] "x" = pdf_title "x".
Proof. repeat split; vm_compute; reflexivity. Qed.

(** ** The search handler *)

Lemma with_sent_nil w : with_sent w [] = w.
Proof. destruct w. unfold with_sent. simpl. now rewrite app_nil_r. Qed.

Lemma with_sent_app w l1 l2 : with_sent (with_sent w l1) l2 = with_sent w (l1 ++ l2).
Proof. unfold with_sent. simpl. now rewrite app_assoc. Qed.

Lemma for_each_send {A} (l : list A) (body : A -> M unit) (msg : A -> outgoing) w :
  (forall x w', body x w' = (Ok tt, with_sent w' [msg x])) ->
  for_each l body w = (Ok tt, with_sent w (map msg l)).
Proof.
  intros Hbody. revert w. induction l as [|x l IH]; intros w; simpl.
  - now rewrite with_sent_nil.
  - unfold mbind, M_bind. rewrite Hbody, IH. now rewrite with_sent_app.
Qed.

Lemma map_enumerate_from {A B} (f : nat -> A -> B) (k : nat) (l : list A) :
  map (fun ir => f (fst ir) (snd ir)) (enumerate_from k l)
  = imap (fun i => f (k + i)%nat) l.
Proof.
  revert k. induction l as [|x l IH]; intros k; [reflexivity |].
  cbn [enumerate_from map imap fst snd]. rewrite IH, Nat.add_0_r. f_equal.
  apply imap_ext. intros i y _. simpl. now rewrite Nat.add_succ_r.
Qed.

Lemma send_result_message query results i result w :
  send_result query results (i, result) w
  = (Ok tt, with_sent w [result_message query results i result]).
Proof.
  unfold send_result, result_message, reply_text, send, with_sent.
  destruct (decide (S i = length (take 5 results))) as [Hi | Hi].
  - replace (Z.of_nat i =? Z.of_nat (length (take 5 results)) - 1) with true
      by (symmetry; apply Z.eqb_eq; lia).
    unfold showing_notice, export_prompt.
    destruct (5 <? length results)%nat;
      now rewrite ?TextFacts.app_assoc.
  - replace (Z.of_nat i =? Z.of_nat (length (take 5 results)) - 1) with false
      by (symmetry; apply Z.eqb_neq; lia).
    reflexivity.
Qed.

(** What one run of the handler does, by cases. *)
Lemma handle_search_with_run search uid text w :
  handle_search_with search uid text w
  = if decide (Text.strip text = "") then (Ok tt, with_sent w [prompt_message])
    else
      match search (Text.strip text) w with
      | (Raise e, w1) => (Raise e, w1)
      | (Ok [], w1) => (Ok tt, with_sent w1 [no_results_message])
      | (Ok results, w1) =>
          (Ok tt,
           {| log := log w1;
              sent := sent w1
                      ++ imap (result_message (Text.strip text) results) (take 5 results)
                      ++ (if (5 <? length results)%nat
                          then [more_results_message (length results)] else []);
              user_data :=
                <[uid := {| last_results := Some results;
                            last_query := Some (Text.strip text) |}]> (user_data w1);
              files := files w1 |})
      end.
Proof.
  unfold handle_search_with.
  destruct (decide (Text.strip text = "")) as [Hq | Hq]; [reflexivity |].
  unfold mbind at 1. unfold M_bind at 1.
  destruct (search (Text.strip text) w) as [[results | e] w1]; [| reflexivity].
  destruct results as [|r results]; [reflexivity |].
  cbv beta iota.
  generalize (r :: results). clear r results. intros rs.
  unfold mbind, M_bind, set_session.
  rewrite (for_each_send _ _
             (fun ir => result_message (Text.strip text) rs (fst ir) (snd ir)))
    by (intros [i x] w'; apply send_result_message).
  unfold enumerate.
  rewrite (map_enumerate_from (result_message (Text.strip text) rs) 0).
  unfold session_of, with_sent, reply_text, send, mret, M_ret.
  cbn [log sent user_data files last_results last_query Nat.add].
  rewrite lookup_insert_eq, insert_insert_eq.
  cbn [default last_results last_query].
  unfold more_results_message.
  destruct (5 <? length rs)%nat.
  - cbn [log sent user_data files]. now rewrite <- app_assoc.
  - now rewrite app_nil_r.
Qed.

Lemma search_pincode_keeps E df query w results w1 :
  search_pincode E df query w = (Ok results, w1) ->
  sent w1 = sent w /\ user_data w1 = user_data w /\ files w1 = files w.
Proof.
  intros Hrun.
  destruct (search_pincode_never_raises_aux E df query w) as [Hw | (e & Hw)];
    rewrite Hw in Hrun; injection Hrun as _ <-; now repeat split.
Qed.

(** C6. A search that found [n] results sends one message per result
    for the first five results at most, message [i] starting with the
    text of result [i].  When [n > 5], five such messages are sent, the
    fifth ends with the notice that 5 of [n] are shown and the export
    prompt, and one closing message says that there are [n] in total. *)
Theorem handle_search_shows_at_most_five E df uid text w results w1 :
  Text.strip text <> "" ->
  search_pincode E df (Text.strip text) w = (Ok results, w1) ->
  let n := length results in
  let shown := imap (result_message (Text.strip text) results) (take 5 results) in
  sent (snd (handle_search E df uid text w))
  = sent w ++ shown
      ++ match results with
         | [] => [no_results_message]
         | _ :: _ => if (5 <? n)%nat then [more_results_message n] else []
         end
  /\ length shown = Nat.min n 5
  /\ (forall i r, (i < 5)%nat -> results !! i = Some r ->
        exists tail markup,
          shown !! i
          = Some (ReplyText (format_result r (Some i) +:+ tail)
                            (Some "HTML") markup true))
  /\ ((5 < n)%nat ->
        length shown = 5%nat
        /\ exists r,
             results !! 4%nat = Some r
             /\ shown !! 4%nat
                = Some (ReplyText
                          (format_result r (Some 4%nat) +:+ nl +:+ nl
                             +:+ "ℹ️ Showing 5 of " +:+ Text.str_int (Z.of_nat n)
                             +:+ " results." +:+ nl +:+ nl
                             +:+ "📄 You can export all results to PDF:")
                          (Some "HTML")
                          (Some (export_button (Text.strip text))) true)).
Proof.
  intros Hq Hrun n shown.
  destruct (search_pincode_keeps E df _ w results w1 Hrun) as (Hsent & _ & _).
  assert (Hlen : length shown = Nat.min n 5).
  { unfold shown. rewrite length_imap, length_take. subst n. lia. }
  split; [| split; [exact Hlen | split]].
  - unfold handle_search. rewrite handle_search_with_run.
    destruct (decide (Text.strip text = "")) as [Hq' | _]; [contradiction |].
    rewrite Hrun. destruct results as [|r results]; simpl; now rewrite Hsent.
  - intros i r Hi Hr. unfold shown.
    rewrite list_lookup_imap, lookup_take_lt, Hr by exact Hi. simpl.
    unfold result_message. destruct (decide _); eauto.
    exists "", None. now rewrite TextFacts.app_nil_r.
  - intros Hn. split; [lia |].
    destruct (lookup_lt_is_Some_2 results 4) as [r Hr]; [subst n; lia |].
    exists r. split; [exact Hr |]. unfold shown.
    rewrite list_lookup_imap, lookup_take_lt, Hr by lia. simpl.
    unfold result_message.
    destruct (decide (5%nat = length (take 5 results))) as [_ | Hbad];
      [| rewrite length_take in Hbad; subst n; lia].
    replace (5 <? length results)%nat with true
      by (symmetry; apply Nat.ltb_lt; exact Hn).
    unfold showing_notice, export_prompt.
    now rewrite !TextFacts.app_assoc.
Qed.

Lemma handle_search_shows_at_most_five_witness :
  let df := replicate 7 new_delhi_gpo in
  Text.strip " delhi " <> ""
  /\ search_pincode quiet df (Text.strip " delhi ") world0 = (Ok df, world0)
  /\ length (sent (snd (handle_search quiet df 1 " delhi " world0))) = 6%nat.
Proof.
  cbv zeta.
  assert (Hq : Text.strip " delhi " <> "") by (vm_compute; discriminate).
  assert (Hrun : search_pincode quiet (replicate 7 new_delhi_gpo)
                   (Text.strip " delhi ") world0
                 = (Ok (replicate 7 new_delhi_gpo), world0))
    by (vm_compute; reflexivity).
  split; [exact Hq | split; [exact Hrun |]].
  destruct (handle_search_shows_at_most_five quiet _ 1 " delhi " world0 _ _ Hq Hrun)
    as (Hsent & Hlen & _).
  rewrite Hsent, !length_app, Hlen. reflexivity.
Defined.

(** Scenario 5 of the specification, run. *)
Example scenario5_chat :
  exists m0 m1 m2 m3 text5,
    sent (snd (handle_search quiet (replicate 7 new_delhi_gpo) 1 "delhi" world0))
    = [m0; m1; m2; m3;
       ReplyText text5 (Some "HTML") (Some (export_button "delhi")) true;
       more_results_message 7]
    /\ Text.contains "Showing 5 of 7 results." text5 = true.
Proof. do 5 eexists. split; vm_compute; reflexivity. Qed.

(** ** The session *)

(** C8, as stated, fails: a search that finds nothing leaves the
    session of the earlier search in place. *)
Lemma handle_search_keeps_earlier_session :
  let df := [new_delhi_gpo] in
  let w1 := snd (handle_search quiet df 1 "delhi" world0) in
  let w2 := snd (handle_search quiet df 1 "999999" w1) in
  search_pincode quiet df "999999" w1 = (Ok [], w1)
  /\ session_of w2 1
     = {| last_results := Some [new_delhi_gpo]; last_query := Some "delhi" |}
  /\ session_of w2 1
     <> {| last_results := Some []; last_query := Some "999999" |}.
Proof.
  cbv zeta.
  assert (Hs : session_of
                 (snd (handle_search quiet [new_delhi_gpo] 1 "999999"
                         (snd (handle_search quiet [new_delhi_gpo] 1 "delhi" world0)))) 1
               = {| last_results := Some [new_delhi_gpo]; last_query := Some "delhi" |})
    by (vm_compute; reflexivity).
  split; [vm_compute; reflexivity | split; [exact Hs |]].
  rewrite Hs. discriminate.
Qed.

(** C8, amended. After a search of a non-blank text that found at least
    one row, the session of the requester holds the stripped query and
    the full list of results.  A search of a blank text, or one that
    found nothing, leaves every session as it was; the sessions of other
    requesters are never touched. *)
Theorem handle_search_session E df uid text w results w1 :
  search_pincode E df (Text.strip text) w = (Ok results, w1) ->
  let w2 := snd (handle_search E df uid text w) in
  (Text.strip text <> "" -> results <> [] ->
     session_of w2 uid
     = {| last_results := Some results; last_query := Some (Text.strip text) |})
  /\ (Text.strip text = "" \/ results = [] -> user_data w2 = user_data w)
  /\ (forall other, other <> uid -> session_of w2 other = session_of w other).
Proof.
  intros Hrun w2.
  destruct (search_pincode_keeps E df _ w results w1 Hrun) as (_ & Hud & _).
  assert (Hw2 : w2 = snd (handle_search_with (search_pincode E df) uid text w))
    by reflexivity.
  clearbody w2. rewrite handle_search_with_run in Hw2.
  destruct (decide (Text.strip text = "")) as [Hq | Hq].
  - subst w2. simpl. split; [| split].
    + intros Hq'. contradiction.
    + reflexivity.
    + intros other _. reflexivity.
  - rewrite Hrun in Hw2. destruct results as [|r results]; subst w2; simpl.
    + split; [| split].
      * intros _ Hnil. contradiction.
      * intros _. exact Hud.
      * intros other _. unfold session_of. simpl. now rewrite Hud.
    + split; [| split].
      * intros _ _. unfold session_of. simpl. now rewrite lookup_insert_eq.
      * intros [Hq' | Hnil]; [contradiction | discriminate].
      * intros other Hother. unfold session_of. simpl.
        rewrite lookup_insert_ne by congruence. now rewrite Hud.
Qed.

Lemma handle_search_session_witness :
  search_pincode quiet [new_delhi_gpo] (Text.strip " Delhi ") world0
  = (Ok [new_delhi_gpo], world0)
  /\ session_of (snd (handle_search quiet [new_delhi_gpo] 7 " Delhi " world0)) 7
     = {| last_results := Some [new_delhi_gpo]; last_query := Some "Delhi" |}.
Proof.
  assert (Hrun : search_pincode quiet [new_delhi_gpo] (Text.strip " Delhi ") world0
                 = (Ok [new_delhi_gpo], world0)) by (vm_compute; reflexivity).
  split; [exact Hrun |].
  destruct (handle_search_session quiet _ 7 " Delhi " world0 _ _ Hrun) as (Hset & _).
  apply Hset; [vm_compute | ]; discriminate.
Defined.

(** ** Blank queries *)

(** C10. The handler strips the text before it tests it for emptiness:
    a text of whitespace only is answered like the empty text, with the
    prompt and nothing else.  The result of the handler depends on the
    search it calls only through its values at stripped, non-empty
    queries: it calls it with no other argument. *)
Theorem handle_search_strips_first E df uid text w :
  (Text.all Text.isspace text = true <-> Text.strip text = "")
  /\ (Text.strip text = "" ->
        handle_search E df uid text w = handle_search E df uid "" w
        /\ handle_search E df uid text w = (Ok tt, with_sent w [prompt_message]))
  /\ (forall search1 search2 : string -> M (list row),
        (forall q w', q <> "" -> Text.strip q = q -> search1 q w' = search2 q w') ->
        handle_search_with search1 uid text w = handle_search_with search2 uid text w).
Proof.
  split; [split; [apply TextFacts.strip_all_space | apply TextFacts.strip_empty] |].
  split.
  - intros Hq. unfold handle_search. rewrite !handle_search_with_run.
    destruct (decide (Text.strip text = "")); [| contradiction].
    now split.
  - intros search1 search2 Hagree. rewrite !handle_search_with_run.
    destruct (decide (Text.strip text = "")) as [Hq | Hq]; [reflexivity |].
    now rewrite (Hagree _ w Hq (TextFacts.strip_idem text)).
Qed.

Example handle_search_spaces :
  handle_search quiet [new_delhi_gpo] 1 (" " +:+ nl +:+ "  ") world0
  = (Ok tt, with_sent world0 [prompt_message]).
Proof. vm_compute. reflexivity. Qed.

(** ** The export handler *)

Lemma startswith_app (p s : string) :
  Text.startswith p s = true -> exists t, s = p +:+ t.
Proof.
  revert s. induction p as [|a p IH]; intros s H; [now exists s |].
  destruct s as [|b s]; [discriminate |]. simpl in H.
  destruct (Ascii.eqb_spec a b) as [-> | _]; [| discriminate].
  destruct (IH s H) as (t & ->). now exists t.
Qed.

Lemma callback_query_of (query : string) :
  Text.split_once ":" ("pdf_export:" +:+ query) = ["pdf_export"; query].
Proof. reflexivity. Qed.

(** What one run of the export does, by cases. *)
Lemma export_pdf_run E uid query w :
  export_pdf E uid ("pdf_export:" +:+ query) w
  = match default [] (last_results (session_of w uid)) with
    | [] => (Ok tt, with_sent w [Answer; search_again_message])
    | r :: rs =>
        let pdf := pdf_document (r :: rs) query in
        if output_fails E then
          (Ok tt,
           {| log := log w ++ [("Error generating PDF: ", OSError)];
              sent := sent w ++ [Answer; export_failed_message];
              user_data := user_data w; files := files w |})
        else if reply_document_fails E then
          (Ok tt,
           {| log := log w ++ [("Error generating PDF: ", TelegramError)];
              sent := sent w ++ [Answer; export_failed_message];
              user_data := user_data w;
              files := <[export_path query := pdf]> (files w) |})
        else
          (Ok tt,
           {| log := log w;
              sent := sent w
                      ++ [Answer;
                          ReplyDocument pdf
                            ("Here are the pincode results for '" +:+ query +:+ "'")
                            (export_path query)];
              user_data := user_data w;
              files := delete (export_path query) (files w) |})
    end.
Proof.
  unfold export_pdf. rewrite callback_query_of.
  unfold mbind, M_bind, send, item1, get_session, try_except, mret, M_ret.
  cbn [lookup list_lookup].
  replace (session_of _ uid) with (session_of w uid) by reflexivity.
  destruct (default [] (last_results (session_of w uid))) as [|r rs].
  - unfold with_sent, search_again_message. cbn [log sent user_data files].
    now rewrite <- app_assoc.
  - unfold create_pdf, pdf_output, reply_document, open_rb, os_remove,
      logger_error, reply_text, write_file, send, raise, mbind, M_bind, mret, M_ret,
      export_path, export_failed_message.
    destruct (output_fails E).
    + cbn [log sent user_data files is_Exception]. now rewrite <- app_assoc.
    + cbn [log sent user_data files]. rewrite lookup_insert_eq.
      destruct (reply_document_fails E);
        cbn [log sent user_data files is_Exception].
      * now rewrite <- app_assoc.
      * rewrite lookup_insert_eq, delete_insert_eq. now rewrite <- app_assoc.
Qed.

(** C9. An export asked for when the requester has no stored results
    (no dictionary yet, no [last_results] in it, or an empty list)
    answers the callback, edits the message into the request to search
    again, and does nothing else: no document is sent, no file is
    written, nothing is logged and nothing is raised. *)
Theorem export_pdf_without_session E uid data w :
  Text.startswith "pdf_export:" data = true ->
  user_data w !! uid = None
  \/ last_results (session_of w uid) = None
  \/ last_results (session_of w uid) = Some [] ->
  export_pdf E uid data w = (Ok tt, with_sent w [Answer; search_again_message])
  /\ on_callback_query E uid data w = export_pdf E uid data w.
Proof.
  intros Hdata Hnone. split.
  - destruct (startswith_app _ _ Hdata) as (query & ->).
    rewrite export_pdf_run.
    assert (Hres : default [] (last_results (session_of w uid)) = []).
    { destruct Hnone as [Hu | [Hl | Hl]].
      - unfold session_of. now rewrite Hu.
      - now rewrite Hl.
      - now rewrite Hl. }
    now rewrite Hres.
  - unfold on_callback_query. now rewrite Hdata.
Qed.

Lemma export_pdf_without_session_witness :
  Text.startswith "pdf_export:" "pdf_export:delhi" = true
  /\ user_data world0 !! 1 = None
  /\ export_pdf quiet 1 "pdf_export:delhi" world0
     = (Ok tt, with_sent world0 [Answer; search_again_message]).
Proof.
  split; [reflexivity | split; [reflexivity |]].
  apply (export_pdf_without_session quiet 1 "pdf_export:delhi" world0 eq_refl).
  left. reflexivity.
Defined.

(** The export when nothing fails: the document is sent and the file is
    gone afterwards. *)
Lemma export_pdf_removes_file E uid query w :
  output_fails E = false -> reply_document_fails E = false ->
  default [] (last_results (session_of w uid)) <> [] ->
  files (snd (export_pdf E uid ("pdf_export:" +:+ query) w)) !! export_path query = None.
Proof.
  intros Hout Hsend Hres. rewrite export_pdf_run.
  destruct (default [] (last_results (session_of w uid))); [contradiction |].
  cbv zeta. rewrite Hout, Hsend. simpl. apply lookup_delete_eq.
Qed.

(** The export when the hand-off to the transport fails: the file that
    was written stays. *)
Lemma export_pdf_keeps_file E uid query w :
  output_fails E = false -> reply_document_fails E = true ->
  default [] (last_results (session_of w uid)) <> [] ->
  files (snd (export_pdf E uid ("pdf_export:" +:+ query) w)) !! export_path query
  = Some (pdf_document (default [] (last_results (session_of w uid))) query).
Proof.
  intros Hout Hsend Hres. rewrite export_pdf_run.
  destruct (default [] (last_results (session_of w uid))); [contradiction |].
  cbv zeta. rewrite Hout, Hsend. simpl. apply lookup_insert_eq.
Qed.

(** C7, at an export whose hand-off fails.  The requester searched
    "delhi" and pressed the button; [reply_document] raises.  The
    handler logs the error and apologises, and the file it wrote is
    still in the working directory when it returns. *)
Theorem export_pdf_leaves_file_behind :
  let w := snd (handle_search send_refused [new_delhi_gpo] 1 "delhi" world0) in
  let run := export_pdf send_refused 1 "pdf_export:delhi" w in
  files w = ∅
  /\ fst run = Ok tt
  /\ log (snd run) = [("Error generating PDF: ", TelegramError)]
  /\ files (snd run) !! "pincode_results_delhi.pdf"
     = Some (pdf_document [new_delhi_gpo] "delhi").
Proof. cbv zeta. repeat split; vm_compute; reflexivity. Qed.

(** ** More on the search *)

Lemma lower_char_idem (c : ascii) :
  Text.lower_char (Text.lower_char c) = Text.lower_char c.
Proof. destruct c as [[] [] [] [] [] [] [] []]; reflexivity. Qed.

Lemma lower_idem (s : string) : Text.lower (Text.lower s) = Text.lower s.
Proof.
  induction s as [|c s IH]; simpl; [reflexivity |].
  now rewrite lower_char_idem, IH.
Qed.

Lemma isspace_c_lower_char (c : ascii) :
  PyInt.isspace_c (Text.lower_char c) = PyInt.isspace_c c.
Proof. destruct c as [[] [] [] [] [] [] [] []]; reflexivity. Qed.

Lemma skip_leading_lower (s : string) :
  PyInt.skip_leading (Text.lower s) = Text.lower (PyInt.skip_leading s).
Proof.
  induction s as [|c s IH]; simpl; [reflexivity |].
  rewrite isspace_c_lower_char. now destruct (PyInt.isspace_c c).
Qed.

Lemma skip_trailing_lower (s : string) :
  PyInt.skip_trailing (Text.lower s) = Text.lower (PyInt.skip_trailing s).
Proof.
  induction s as [|c s IH]; simpl; [reflexivity |].
  rewrite IH, isspace_c_lower_char.
  destruct (PyInt.skip_trailing s); simpl;
    [now destruct (PyInt.isspace_c c) | reflexivity].
Qed.

Lemma digit_count_lower (s : string) :
  PyInt.digit_count (Text.lower s) = PyInt.digit_count s.
Proof.
  induction s as [|c s IH]; [reflexivity |].
  cbn [Text.lower PyInt.digit_count]. rewrite IH. f_equal.
  destruct c as [[] [] [] [] [] [] [] []]; reflexivity.
Qed.

Lemma digits_lower (s : string) (acc : Z) (prev : bool) :
  PyInt.digits acc prev (Text.lower s) = PyInt.digits acc prev s.
Proof.
  revert acc prev. induction s as [|c s IH]; intros acc prev; [reflexivity |].
  cbn [Text.lower PyInt.digits].
  assert (Hc : (Text.isdigit c = true \/ Ascii.eqb c "_" = true) ->
               Text.lower_char c = c)
    by (destruct c as [[] [] [] [] [] [] [] []]; cbn; intros [H | H];
        solve [reflexivity | discriminate H]).
  assert (Hd : Text.isdigit (Text.lower_char c) = Text.isdigit c)
    by (destruct c as [[] [] [] [] [] [] [] []]; reflexivity).
  assert (Hu : Ascii.eqb (Text.lower_char c) "_" = Ascii.eqb c "_")
    by (destruct c as [[] [] [] [] [] [] [] []]; reflexivity).
  rewrite Hd, Hu.
  destruct (Text.isdigit c) eqn:Hdigit.
  - rewrite (Hc (or_introl eq_refl)). apply IH.
  - destruct (Ascii.eqb c "_"); [| reflexivity].
    destruct prev; [apply IH | reflexivity].
Qed.

Lemma decimal_lower (s : string) :
  PyInt.decimal (Text.lower s) = PyInt.decimal s.
Proof. unfold PyInt.decimal. now rewrite digit_count_lower, digits_lower. Qed.

Lemma py_int_sign (s : string) :
  PyInt.py_int s
  = match PyInt.skip_trailing (PyInt.skip_leading s) with
    | "" => None
    | String c t =>
        if Ascii.eqb c "-" then Z.opp <$> PyInt.decimal t
        else if Ascii.eqb c "+" then PyInt.decimal t
        else PyInt.decimal (String c t)
    end.
Proof.
  unfold PyInt.py_int.
  destruct (PyInt.skip_trailing (PyInt.skip_leading s)) as [|c t]; [reflexivity |].
  destruct c as [[] [] [] [] [] [] [] []]; reflexivity.
Qed.

Lemma py_int_lower (s : string) : PyInt.py_int (Text.lower s) = PyInt.py_int s.
Proof.
  rewrite !py_int_sign, skip_leading_lower, skip_trailing_lower.
  destruct (PyInt.skip_trailing (PyInt.skip_leading s)) as [|c t]; [reflexivity |].
  cbn [Text.lower].
  replace (Ascii.eqb (Text.lower_char c) "-") with (Ascii.eqb c "-")
    by (destruct c as [[] [] [] [] [] [] [] []]; reflexivity).
  replace (Ascii.eqb (Text.lower_char c) "+") with (Ascii.eqb c "+")
    by (destruct c as [[] [] [] [] [] [] [] []]; reflexivity).
  change (String (Text.lower_char c) (Text.lower t))
    with (Text.lower (String c t)).
  now rewrite !decimal_lower.
Qed.



(** X2. A query that is not an integer and that [re.compile] rejects
    finds nothing: the search returns the empty list and writes one
    line to the log instead of raising. *)
Theorem name_search_bad_pattern E df query w :
  PyInt.py_int query = None ->
  Regex.compile (re_beyond E) (Text.lower query) = None ->
  search_pincode E df query w
  = (Ok [], {| log := log w ++ [("Error in search: ", ReError)];
               sent := sent w; user_data := user_data w; files := files w |}).
Proof. intros Hint Hre. now rewrite search_by_name_error. Qed.

Lemma name_search_bad_pattern_witness :
  PyInt.py_int "Nagar (East" = None
  /\ Regex.compile (re_beyond quiet) (Text.lower "Nagar (East") = None
  /\ fst (search_pincode quiet [anna_nagar_east] "Nagar (East" world0) = Ok [].
Proof.
  split; [reflexivity | split; [reflexivity |]].
  now rewrite (name_search_bad_pattern quiet [anna_nagar_east] "Nagar (East"
                 world0 eq_refl eq_refl).
Defined.

(** X3. A query that is not an integer and has none of the characters
    [. \ [ { ( ) * + ? ^ $ |] is searched as plain text: the rows
    returned are those whose lower-cased office name, district or state
    contains the lower-cased query. *)
Theorem name_search_plain_text E df query w :
  PyInt.py_int query = None ->
  Regex.plain (Text.lower query) = true ->
  exists results,
    search_pincode E df query w = (Ok results, w)
    /\ forall r,
         In r results
         <-> In r df
             /\ (Text.contains (Text.lower query) (Text.lower (officename r)) = true
                 \/ Text.contains (Text.lower query) (Text.lower (district r)) = true
                 \/ Text.contains (Text.lower query) (Text.lower (statename r)) = true).
Proof.
  intros Hint Hplain. eexists.
  split; [exact (search_by_name_plain E df query w Hint Hplain) |].
  intros r. rewrite filter_In. unfold name_match.
  rewrite !orb_true_iff. tauto.
Qed.

Lemma name_search_plain_text_witness :
  PyInt.py_int "DELHI" = None
  /\ Regex.plain (Text.lower "DELHI") = true
  /\ In new_delhi_gpo
        (match fst (search_pincode quiet [anna_nagar_east; new_delhi_gpo] "DELHI" world0)
         with Ok rs => rs | Raise _ => [] end).
Proof.
  split; [reflexivity | split; [reflexivity |]].
  destruct (name_search_plain_text quiet [anna_nagar_east; new_delhi_gpo] "DELHI"
              world0 eq_refl eq_refl) as (results & Hrun & Hin).
  rewrite Hrun. simpl. apply Hin. split; [right; now left |].
  left. reflexivity.
Defined.

(** X4. Whatever the query, what the search returns is a selection of
    rows of the frame in the order of the frame: it adds no row,
    repeats none and moves none. *)
Theorem search_selects_rows_of_frame E df query w :
  exists results w',
    search_pincode E df query w = (Ok results, w') /\ sublist results df.
Proof.
  destruct (PyInt.py_int query) as [n|] eqn:Hint.
  - eexists _, w. split; [| apply filter_sublist with (f := fun r => pincode r =? n)].
    unfold search_pincode, try_except.
    now rewrite (search_body_pincode E df query n w Hint).
  - destruct (Regex.compile (re_beyond E) (Text.lower query)) as [found|] eqn:Hre.
    + eexists _, w.
      split; [exact (search_by_name E df query w found Hint Hre) | apply filter_sublist].
    + eexists [], _.
      split; [exact (search_by_name_error E df query w Hint Hre) | apply sublist_nil_l].
Qed.

(** X5. The case of the letters of the query does not matter: the
    query and its lower-cased form give the same outcome. *)
Theorem search_ignores_case E df query w :
  search_pincode E df (Text.lower query) w = search_pincode E df query w.
Proof.
  unfold search_pincode, search_body, int_.
  now rewrite py_int_lower, lower_idem.
Qed.

Lemma isdigit_not_space (c : ascii) :
  Text.isdigit c = true ->
  PyInt.isspace_c c = false /\ Ascii.eqb c "-" = false /\ Ascii.eqb c "+" = false.
Proof.
  destruct c as [[] [] [] [] [] [] [] []]; intros H;
    solve [discriminate H | now repeat split].
Qed.

Lemma skip_digits (s : string) :
  Text.all Text.isdigit s = true ->
  PyInt.skip_trailing (PyInt.skip_leading s) = s.
Proof.
  intros Hs.
  assert (Hl : PyInt.skip_leading s = s).
  { destruct s as [|c s]; [reflexivity |]. simpl in *.
    apply andb_true_iff in Hs as [Hc _].
    now rewrite (proj1 (isdigit_not_space c Hc)). }
  rewrite Hl. clear Hl.
  induction s as [|c s IH]; [reflexivity |]. simpl in *.
  apply andb_true_iff in Hs as [Hc Hs]. rewrite (IH Hs).
  destruct s; [| reflexivity].
  now rewrite (proj1 (isdigit_not_space c Hc)).
Qed.

Lemma digit_count_all (s : string) :
  Text.all Text.isdigit s = true ->
  PyInt.digit_count s = Z.of_nat (String.length s).
Proof.
  induction s as [|c s IH]; [reflexivity |].
  cbn [Text.all PyInt.digit_count String.length]. intros Hs.
  apply andb_true_iff in Hs as [Hc Hs]. rewrite Hc, (IH Hs). lia.
Qed.

Lemma digits_all (s : string) (acc : Z) :
  Text.all Text.isdigit s = true -> exists n, PyInt.digits acc true s = Some n.
Proof.
  revert acc. induction s as [|c s IH]; intros acc Hs; simpl in *; [eauto |].
  apply andb_true_iff in Hs as [Hc Hs]. rewrite Hc. now apply IH.
Qed.

(** A text of digits, not too many, is read as a number, and a zero
    written before it changes nothing. *)
Lemma py_int_leading_zero (ds : string) :
  ds <> "" -> Text.all Text.isdigit ds = true ->
  Z.of_nat (String.length ds) < PyInt.max_str_digits ->
  exists n,
    PyInt.py_int ds = Some n /\ PyInt.py_int (String "0" ds) = Some n.
Proof.
  intros Hne Hds Hlen.
  assert (Hds0 : Text.all Text.isdigit (String "0" ds) = true)
    by (cbn [Text.all]; now rewrite Hds).
  rewrite !py_int_sign, (skip_digits ds Hds), (skip_digits _ Hds0).
  unfold PyInt.decimal. rewrite (digit_count_all _ Hds0).
  destruct ds as [|c t]; [contradiction |].
  rewrite (digit_count_all _ Hds).
  cbn [Text.all] in Hds. apply andb_true_iff in Hds as [Hc Ht].
  destruct (isdigit_not_space c Hc) as (_ & -> & ->).
  cbn [Ascii.eqb Bool.eqb].
  replace (Z.of_nat (String.length (String "0" (String c t))) <=? PyInt.max_str_digits)
    with true
    by (symmetry; apply Z.leb_le; cbn [String.length] in *; lia).
  replace (Z.of_nat (String.length (String c t)) <=? PyInt.max_str_digits)
    with true
    by (symmetry; apply Z.leb_le; lia).
  assert (Hstep : forall acc prev d u, Text.isdigit d = true ->
            PyInt.digits acc prev (String d u)
            = PyInt.digits (10 * acc + PyInt.digit_val d) true u)
    by (intros acc prev d u Hd; simpl; now rewrite Hd).
  rewrite (Hstep 0 false "0"%char) by reflexivity.
  replace (10 * 0 + PyInt.digit_val "0") with 0 by reflexivity.
  rewrite !Hstep by exact Hc.
  destruct (digits_all t (10 * 0 + PyInt.digit_val c) Ht) as (n & Hn).
  exists n. now rewrite Hn.
Qed.

(** X6. A zero written before the digits of a pincode is ignored, as
    long as [int] still reads the digits: for fewer than 4300 digits
    the query "0110001" finds what "110001" finds. *)
Theorem search_ignores_leading_zero E df ds w :
  ds <> "" -> Text.all Text.isdigit ds = true ->
  Z.of_nat (String.length ds) < PyInt.max_str_digits ->
  search_pincode E df (String "0" ds) w = search_pincode E df ds w.
Proof.
  intros Hne Hds Hlen.
  destruct (py_int_leading_zero ds Hne Hds Hlen) as (n & Hn & Hn0).
  unfold search_pincode, try_except.
  now rewrite (search_body_pincode E df ds n w Hn),
    (search_body_pincode E df (String "0" ds) n w Hn0).
Qed.

Lemma search_ignores_leading_zero_witness :
  "110001" <> "" /\ Text.all Text.isdigit "110001" = true
  /\ Z.of_nat (String.length "110001") < PyInt.max_str_digits
  /\ search_pincode quiet [new_delhi_gpo] "0110001" world0
     = (Ok [new_delhi_gpo], world0).
Proof.
  assert (Hne : "110001" <> "") by discriminate.
  assert (Hlen : Z.of_nat (String.length "110001") < PyInt.max_str_digits)
    by reflexivity.
  split; [exact Hne | split; [reflexivity | split; [exact Hlen |]]].
  rewrite (search_ignores_leading_zero quiet [new_delhi_gpo] "110001" world0
             Hne eq_refl Hlen).
  vm_compute. reflexivity.
Defined.

Lemma filter_all {A} (f : A -> bool) (l : list A) :
  (forall x, f x = true) -> List.filter f l = l.
Proof.
  intros Hf. induction l as [|x l IH]; simpl; [reflexivity |].
  now rewrite Hf, IH.
Qed.

(** X7. The empty query, which the handler never passes on, selects
    every row: called with it, the search returns the whole frame. *)
Theorem search_empty_query_returns_frame E df w :
  search_pincode E df "" w = (Ok df, w).
Proof.
  rewrite (search_by_name_plain E df "" w eq_refl eq_refl).
  rewrite filter_all; [reflexivity |].
  intros r. unfold name_match. now destruct (Text.lower (officename r)).
Qed.

(** ** More on the search handler *)

Lemma search_pincode_ok E df query w :
  exists results w1,
    search_pincode E df query w = (Ok results, w1)
    /\ sent w1 = sent w /\ user_data w1 = user_data w /\ files w1 = files w.
Proof.
  destruct (search_pincode_never_raises_aux E df query w) as [Hw | (e & Hw)];
    rewrite Hw; eexists _, _; now repeat split.
Qed.

(** X8. Whatever the text, the search handler writes no file and
    makes at least one and at most six calls on the transport, each of
    them a [reply_text]. *)
Theorem handle_search_replies_one_to_six E df uid text w :
  exists new,
    sent (snd (handle_search E df uid text w)) = sent w ++ new
    /\ (1 <= length new <= 6)%nat
    /\ (forall m, In m new ->
          exists reply mode markup preview, m = ReplyText reply mode markup preview)
    /\ files (snd (handle_search E df uid text w)) = files w.
Proof.
  unfold handle_search. rewrite handle_search_with_run.
  destruct (decide (Text.strip text = "")) as [Hq | Hq].
  - exists [prompt_message]. simpl. split; [reflexivity | split; [lia | split]];
      [| reflexivity].
    intros m [<- | []]. unfold prompt_message. eauto.
  - destruct (search_pincode_ok E df (Text.strip text) w)
      as (results & w1 & Hrun & Hsent & _ & Hfiles).
    rewrite Hrun. destruct results as [|r results].
    + exists [no_results_message]. simpl. rewrite Hsent, Hfiles.
      split; [reflexivity | split; [lia | split]]; [| reflexivity].
      intros m [<- | []]. unfold no_results_message. eauto.
    + eexists. cbn [fst snd sent files]. rewrite Hsent, Hfiles.
      split; [reflexivity | split; [| split; [| reflexivity]]].
      * rewrite length_app, length_imap, length_take.
        destruct (5 <? length (r :: results))%nat; cbn [length]; lia.
      * intros m Hm. apply in_app_or in Hm as [Hm | Hm].
        -- apply list_elem_of_In, list_elem_of_lookup in Hm as (i & Hm).
           rewrite list_lookup_imap in Hm.
           destruct (take 5 (r :: results) !! i) as [x|]; [| discriminate].
           injection Hm as <-. unfold result_message.
           destruct (decide _); eauto.
        -- destruct (5 <? length (r :: results))%nat; [| contradiction].
           destruct Hm as [<- | []]. unfold more_results_message. eauto.
Qed.

(** X9. After a search that found something, exactly one of the
    messages sent carries the export button: the last of the messages
    that show a result.  Its callback data is "pdf_export:" followed by
    the stripped query. *)
Theorem handle_search_button_on_last_result E df uid text w results w1 :
  Text.strip text <> "" ->
  search_pincode E df (Text.strip text) w = (Ok results, w1) ->
  results <> [] ->
  exists shown closing,
    sent (snd (handle_search E df uid text w)) = sent w ++ shown ++ closing
    /\ (1 <= length shown)%nat
    /\ (forall i m, shown !! i = Some m ->
          markup_of m
          = if decide (S i = length shown)
            then Some [[ {| label := "Export to PDF";
                            callback_data := "pdf_export:" +:+ Text.strip text |} ]]
            else None)
    /\ (forall m, In m closing -> markup_of m = None).
Proof.
  intros Hq Hrun Hres.
  destruct (search_pincode_keeps E df _ w results w1 Hrun) as (Hsent & _ & _).
  unfold handle_search. rewrite handle_search_with_run.
  destruct (decide (Text.strip text = "")) as [Hq' | _]; [contradiction |].
  rewrite Hrun. destruct results as [|r rs]; [contradiction |].
  eexists _, _. cbn [snd sent]. rewrite Hsent.
  split; [reflexivity | split; [| split]].
  - rewrite length_imap, length_take. simpl. lia.
  - intros i m Hm. rewrite list_lookup_imap in Hm.
    destruct (take 5 (r :: rs) !! i) as [x|]; [| discriminate].
    injection Hm as <-. rewrite length_imap. unfold result_message.
    now destruct (decide (S i = length (take 5 (r :: rs)))).
  - intros m Hm. destruct (5 <? length (r :: rs))%nat; [| contradiction].
    destruct Hm as [<- | []]. reflexivity.
Qed.

Lemma handle_search_button_on_last_result_witness :
  let df := replicate 3 new_delhi_gpo in
  Text.strip "delhi" <> ""
  /\ search_pincode quiet df (Text.strip "delhi") world0 = (Ok df, world0)
  /\ df <> []
  /\ exists shown closing,
       sent (snd (handle_search quiet df 1 "delhi" world0)) = shown ++ closing
       /\ (1 <= length shown)%nat.
Proof.
  cbv zeta.
  assert (Hq : Text.strip "delhi" <> "") by (vm_compute; discriminate).
  assert (Hrun : search_pincode quiet (replicate 3 new_delhi_gpo)
                   (Text.strip "delhi") world0
                 = (Ok (replicate 3 new_delhi_gpo), world0))
    by (vm_compute; reflexivity).
  assert (Hne : replicate 3 new_delhi_gpo <> []) by discriminate.
  split; [exact Hq | split; [exact Hrun | split; [exact Hne |]]].
  destruct (handle_search_button_on_last_result quiet _ 1 "delhi" world0 _ _
              Hq Hrun Hne) as (shown & closing & Hsent & Hlen & _).
  exists shown, closing. split; [exact Hsent | exact Hlen].
Defined.

(** ** More on the export *)

Lemma export_pdf_of_split E uid data query w :
  Text.split_once ":" data !! 1%nat = Some query ->
  export_pdf E uid data w = export_pdf E uid ("pdf_export:" +:+ query) w.
Proof.
  intros Hsplit. unfold export_pdf. rewrite callback_query_of.
  unfold mbind, M_bind, send, item1. rewrite Hsplit. reflexivity.
Qed.

Lemma export_pdf_index_error E uid data w :
  Text.split_once ":" data !! 1%nat = None ->
  export_pdf E uid data w = (Raise IndexError, with_sent w [Answer]).
Proof.
  intros Hsplit. unfold export_pdf.
  unfold mbind, M_bind, send, item1. now rewrite Hsplit.
Qed.

Lemma split_once_no_colon (s : string) :
  Text.all (fun c => negb (Ascii.eqb c ":")) s = true ->
  Text.split_once ":" s = [s].
Proof.
  induction s as [|c s IH]; simpl; [reflexivity |].
  intros H. apply andb_true_iff in H as [Hc Hs].
  apply negb_true_iff in Hc. now rewrite Hc, (IH Hs).
Qed.

(** X10. Pressing the button after a search exports that search: when
    nothing fails, the handler answers the callback and sends one
    document, built from the full list of results of the search (not
    only the five shown) under the stripped query; it logs nothing and
    the file it wrote is gone when it returns. *)
Theorem search_then_export E df uid text w results w1 :
  Text.strip text <> "" ->
  search_pincode E df (Text.strip text) w = (Ok results, w1) ->
  results <> [] ->
  output_fails E = false -> reply_document_fails E = false ->
  let query := Text.strip text in
  let w2 := snd (handle_search E df uid text w) in
  let run := export_pdf E uid ("pdf_export:" +:+ query) w2 in
  fst run = Ok tt
  /\ sent (snd run)
     = sent w2
       ++ [Answer;
           ReplyDocument (pdf_title query ++ concat (imap pdf_block results))
             ("Here are the pincode results for '" +:+ query +:+ "'")
             ("pincode_results_" +:+ query +:+ ".pdf")]
  /\ log (snd run) = log w2
  /\ user_data (snd run) = user_data w2
  /\ files (snd run) !! ("pincode_results_" +:+ query +:+ ".pdf") = None.
Proof.
  intros Hq Hrun Hres Hout Hsend query w2 run. subst query.
  assert (Hs : last_results (session_of w2 uid) = Some results).
  { subst w2. unfold handle_search. rewrite handle_search_with_run.
    destruct (decide (Text.strip text = "")) as [Hq' | _]; [contradiction |].
    rewrite Hrun. destruct results as [|r rs]; [contradiction |].
    unfold session_of. simpl. now rewrite lookup_insert_eq. }
  subst run. rewrite export_pdf_run, Hs. cbn [default from_option id].
  destruct results as [|r rs]; [contradiction |].
  cbv zeta. rewrite Hout, Hsend. cbn [fst snd sent log user_data files].
  assert (Hdoc : pdf_document (r :: rs) (Text.strip text)
                 = pdf_title (Text.strip text) ++ concat (imap pdf_block (r :: rs))).
  { unfold pdf_document, enumerate. now rewrite pdf_loop_blocks. }
  rewrite Hdoc. repeat split. apply lookup_delete_eq.
Qed.

Lemma search_then_export_witness :
  let df := replicate 7 new_delhi_gpo in
  Text.strip "delhi" <> ""
  /\ search_pincode quiet df (Text.strip "delhi") world0 = (Ok df, world0)
  /\ fst (export_pdf quiet 1 "pdf_export:delhi"
            (snd (handle_search quiet df 1 "delhi" world0))) = Ok tt.
Proof.
  cbv zeta.
  assert (Hq : Text.strip "delhi" <> "") by (vm_compute; discriminate).
  assert (Hrun : search_pincode quiet (replicate 7 new_delhi_gpo)
                   (Text.strip "delhi") world0
                 = (Ok (replicate 7 new_delhi_gpo), world0))
    by (vm_compute; reflexivity).
  split; [exact Hq | split; [exact Hrun |]].
  apply (search_then_export quiet _ 1 "delhi" world0 _ _ Hq Hrun);
    [discriminate | reflexivity | reflexivity].
Defined.

(** X11. The export takes the results from the session and the query
    from the button, and never compares the two: with results stored,
    any callback "pdf_export:q" sends those results under the title and
    file name of [q], whatever query the session holds. *)
Theorem export_pairs_stored_results_with_button_query E uid query w r rs :
  last_results (session_of w uid) = Some (r :: rs) ->
  output_fails E = false -> reply_document_fails E = false ->
  sent (snd (export_pdf E uid ("pdf_export:" +:+ query) w))
  = sent w
    ++ [Answer;
        ReplyDocument (pdf_document (r :: rs) query)
          ("Here are the pincode results for '" +:+ query +:+ "'")
          ("pincode_results_" +:+ query +:+ ".pdf")].
Proof.
  intros Hs Hout Hsend. rewrite export_pdf_run, Hs. cbn [default from_option id].
  cbv zeta. now rewrite Hout, Hsend.
Qed.

Lemma export_pairs_stored_results_with_button_query_witness :
  let df := [new_delhi_gpo; anna_nagar_east] in
  let w1 := snd (handle_search quiet df 1 "delhi" world0) in
  let w2 := snd (handle_search quiet df 1 "chennai" w1) in
  session_of w2 1
  = {| last_results := Some [anna_nagar_east]; last_query := Some "chennai" |}
  /\ sent (snd (export_pdf quiet 1 "pdf_export:delhi" w2))
     = sent w2
       ++ [Answer;
           ReplyDocument (pdf_document [anna_nagar_east] "delhi")
             "Here are the pincode results for 'delhi'"
             "pincode_results_delhi.pdf"].
Proof.
  cbv zeta.
  assert (Hs : session_of
                 (snd (handle_search quiet [new_delhi_gpo; anna_nagar_east] 1 "chennai"
                    (snd (handle_search quiet [new_delhi_gpo; anna_nagar_east] 1
                            "delhi" world0)))) 1
               = {| last_results := Some [anna_nagar_east];
                    last_query := Some "chennai" |})
    by (vm_compute; reflexivity).
  split; [exact Hs |].
  apply (export_pairs_stored_results_with_button_query quiet 1 "delhi");
    [now rewrite Hs | reflexivity | reflexivity].
Defined.

Lemma export_keeps_sessions_aux E uid data w :
  user_data (snd (export_pdf E uid data w)) = user_data w.
Proof.
  destruct (Text.split_once ":" data !! 1%nat) as [query|] eqn:Hsplit.
  - rewrite (export_pdf_of_split E uid data query w Hsplit), export_pdf_run.
    destruct (default [] (last_results (session_of w uid))); [reflexivity |].
    cbv zeta. now destruct (output_fails E), (reply_document_fails E).
  - now rewrite (export_pdf_index_error E uid data w Hsplit).
Qed.

(** X12. The export never changes what is stored for any requester,
    whatever the callback data and whatever fails: the same button can
    be pressed again. *)
Theorem export_keeps_sessions E uid data w :
  user_data (snd (export_pdf E uid data w)) = user_data w
  /\ forall other, session_of (snd (export_pdf E uid data w)) other = session_of w other.
Proof.
  split; [apply export_keeps_sessions_aux |].
  intros other. unfold session_of. now rewrite export_keeps_sessions_aux.
Qed.

(** X13. Called with callback data that has no colon, [export_pdf]
    answers the callback and then raises [IndexError]: nothing guards
    the [[1]] after the split. *)
Theorem export_pdf_without_colon E uid data w :
  Text.all (fun c => negb (Ascii.eqb c ":")) data = true ->
  export_pdf E uid data w = (Raise IndexError, with_sent w [Answer]).
Proof.
  intros Hdata. apply export_pdf_index_error.
  now rewrite (split_once_no_colon data Hdata).
Qed.

Lemma export_pdf_without_colon_witness :
  Text.all (fun c => negb (Ascii.eqb c ":")) "pdf_export" = true
  /\ fst (export_pdf quiet 1 "pdf_export" world0) = Raise IndexError.
Proof.
  split; [reflexivity |].
  now rewrite (export_pdf_without_colon quiet 1 "pdf_export" world0 eq_refl).
Defined.

(** X14. Behind the pattern of its registration the callback data
    always splits: what [export_pdf] takes as the query is the text
    after "pdf_export:", later colons included, so the [IndexError] of
    the unguarded [[1]] cannot arise there.  Data that does not pass the
    pattern never reaches the handler. *)
Theorem callback_data_behind_pattern_splits E uid data w :
  if Text.startswith "pdf_export:" data then
    exists query,
      data = "pdf_export:" +:+ query
      /\ Text.split_once ":" data = ["pdf_export"; query]
      /\ on_callback_query E uid data w
         = export_pdf E uid ("pdf_export:" +:+ query) w
  else on_callback_query E uid data w = (Ok tt, w).
Proof.
  unfold on_callback_query.
  destruct (Text.startswith "pdf_export:" data) eqn:Hdata; [| reflexivity].
  destruct (startswith_app _ _ Hdata) as (query & ->).
  exists query. now repeat split.
Qed.

(** The data [handle_search] puts on its button for a query that has a
    colon of its own. *)
Example callback_data_with_colon :
  Text.split_once ":" ("pdf_export:" +:+ "st: thomas mount")
  = ["pdf_export"; "st: thomas mount"].
Proof. reflexivity. Qed.

(** X15. When writing the document fails, the export sends no document:
    it logs the error, tells the requester that the export failed, and
    leaves the working directory as it was. *)
Theorem export_pdf_output_failure E uid query w :
  output_fails E = true ->
  default [] (last_results (session_of w uid)) <> [] ->
  export_pdf E uid ("pdf_export:" +:+ query) w
  = (Ok tt,
     {| log := log w ++ [("Error generating PDF: ", OSError)];
        sent := sent w ++ [Answer; export_failed_message];
        user_data := user_data w; files := files w |}).
Proof.
  intros Hout Hres. rewrite export_pdf_run.
  destruct (default [] (last_results (session_of w uid))); [contradiction |].
  cbv zeta. now rewrite Hout.
Qed.

Lemma export_pdf_output_failure_witness :
  let w := snd (handle_search disk_full [new_delhi_gpo] 1 "delhi" world0) in
  output_fails disk_full = true
  /\ default [] (last_results (session_of w 1)) <> []
  /\ files (snd (export_pdf disk_full 1 "pdf_export:delhi" w)) = files w.
Proof.
  cbv zeta.
  assert (Hres : default []
                   (last_results
                      (session_of (snd (handle_search disk_full [new_delhi_gpo] 1
                                          "delhi" world0)) 1)) <> [])
    by (vm_compute; discriminate).
  split; [reflexivity | split; [exact Hres |]].
  pose proof (export_pdf_output_failure disk_full 1 "delhi" _ eq_refl Hres) as H.
  change ("pdf_export:" +:+ "delhi") with "pdf_export:delhi" in H.
  now rewrite H.
Defined.

Lemma string_length_app (a b : string) :
  String.length (a +:+ b) = (String.length a + String.length b)%nat.
Proof.
  induction a as [|c a IH]; [reflexivity |].
  rewrite TextFacts.app_cons. simpl. now rewrite IH.
Qed.

Lemma string_app_inv_tail (a b t : string) : a +:+ t = b +:+ t -> a = b.
Proof.
  revert b. induction a as [|c a IH]; intros b H.
  - destruct b as [|d b]; [reflexivity |].
    apply (f_equal String.length) in H.
    rewrite !string_length_app in H. simpl in H. lia.
  - destruct b as [|d b].
    + apply (f_equal String.length) in H.
      rewrite !string_length_app in H. simpl in H. lia.
    + rewrite !TextFacts.app_cons in H. injection H as -> H.
      f_equal. now apply IH.
Qed.

Lemma export_path_inj (query1 query2 : string) :
  export_path query1 = export_path query2 -> query1 = query2.
Proof.
  unfold export_path. intros H.
  apply (inj (String.app "pincode_results_")) in H.
  now apply string_app_inv_tail in H.
Qed.

(** X16. The path [create_pdf] writes to determines the query: two
    calls return the same path only when their queries are the same
    text, so exports of different queries never share a file. *)
Theorem create_pdf_path_determines_query E results1 results2 query1 query2 w1 w2 path :
  fst (create_pdf E results1 query1 w1) = Ok path ->
  fst (create_pdf E results2 query2 w2) = Ok path ->
  query1 = query2.
Proof.
  unfold create_pdf, pdf_output, mbind, M_bind, raise, write_file, mret, M_ret.
  destruct (output_fails E); [discriminate |].
  cbn [fst]. intros [= H1] [= H2]. apply export_path_inj.
  unfold export_path. congruence.
Qed.

Lemma create_pdf_path_determines_query_witness :
  fst (create_pdf quiet [new_delhi_gpo] "delhi" world0) = Ok "pincode_results_delhi.pdf"
  /\ "delhi" = "delhi".
Proof.
  assert (H : fst (create_pdf quiet [new_delhi_gpo] "delhi" world0)
              = Ok "pincode_results_delhi.pdf") by reflexivity.
  split; [exact H |].
  exact (create_pdf_path_determines_query quiet _ _ "delhi" "delhi" _ _ _ H H).
Defined.

Lemma handle_search_other_sessions E df uid other text w :
  other <> uid ->
  session_of (snd (handle_search E df uid text w)) other = session_of w other.
Proof.
  intros Hother. unfold handle_search. rewrite handle_search_with_run.
  destruct (decide (Text.strip text = "")); [reflexivity |].
  destruct (search_pincode_ok E df (Text.strip text) w)
    as (results & w1 & Hrun & _ & Hud & _).
  rewrite Hrun. unfold session_of.
  destruct results as [|r rs]; simpl; [now rewrite Hud |].
  rewrite lookup_insert_ne by congruence. now rewrite Hud.
Qed.

(** X17. Results are kept per requester: a search by one requester does
    not let another one export.  A requester with nothing stored who
    presses a button after someone else's search is told to search
    again, and no document is sent. *)
Theorem export_needs_own_search E df uid other text data w :
  other <> uid ->
  Text.startswith "pdf_export:" data = true ->
  default [] (last_results (session_of w other)) = [] ->
  let w2 := snd (handle_search E df uid text w) in
  export_pdf E other data w2 = (Ok tt, with_sent w2 [Answer; search_again_message]).
Proof.
  intros Hother Hdata Hnone w2.
  destruct (startswith_app _ _ Hdata) as (query & ->).
  rewrite export_pdf_run. subst w2.
  now rewrite (handle_search_other_sessions E df uid other text w Hother), Hnone.
Qed.

Lemma export_needs_own_search_witness :
  let w2 := snd (handle_search quiet [new_delhi_gpo] 1 "delhi" world0) in
  2 <> 1
  /\ default [] (last_results (session_of w2 1)) = [new_delhi_gpo]
  /\ export_pdf quiet 2 "pdf_export:delhi" w2
     = (Ok tt, with_sent w2 [Answer; search_again_message]).
Proof.
  cbv zeta. split; [discriminate | split; [vm_compute; reflexivity |]].
  apply (export_needs_own_search quiet [new_delhi_gpo] 1 2 "delhi"
           "pdf_export:delhi" world0); [discriminate | reflexivity | reflexivity].
Defined.

(** ** Loading the data *)

Lemma existsb_eqb_In (col : string) (columns : list string) :
  existsb (String.eqb col) columns = true <-> In col columns.
Proof.
  rewrite existsb_exists. split.
  - intros (x & Hx & Heq). apply String.eqb_eq in Heq. now subst.
  - intros H. exists col. split; [exact H | apply String.eqb_refl].
Qed.

Lemma first_missing_None (required columns : list string) :
  first_missing required columns = None
  <-> forall col, In col required -> In col columns.
Proof.
  induction required as [|c required IH]; simpl.
  - split; [intros _ col [] | reflexivity].
  - destruct (existsb (String.eqb c) columns) eqn:Hc.
    + apply existsb_eqb_In in Hc. rewrite IH. split.
      * intros H col [<- | Hcol]; [exact Hc | now apply H].
      * intros H col Hcol. apply H. now right.
    + split; [discriminate |]. intros H.
      assert (Hin : In c columns) by (apply H; now left).
      apply existsb_eqb_In in Hin. congruence.
Qed.

Lemma first_missing_Some (required columns : list string) (col : string) :
  first_missing required columns = Some col ->
  exists before after,
    required = before ++ col :: after
    /\ (forall c, In c before -> In c columns)
    /\ ~ In col columns.
Proof.
  induction required as [|c required IH]; simpl; [discriminate |].
  destruct (existsb (String.eqb c) columns) eqn:Hc.
  - intros H. destruct (IH H) as (before & after & -> & Hb & Hcol).
    exists (c :: before), after. split; [reflexivity | split; [| exact Hcol]].
    intros x [<- | Hx]; [now apply existsb_eqb_In | now apply Hb].
  - intros [= <-]. exists [], required. split; [reflexivity | split].
    + intros x [].
    + intros Hin. apply existsb_eqb_In in Hin. congruence.
Qed.

(** X18. The frame is accepted exactly when each of the eleven required
    columns is among the lower-cased column names of the file; extra
    columns and the case of the names in the file do not matter.  When
    it is accepted nothing is logged. *)
Theorem load_columns_accepts (columns : list string) w :
  (forall col, In col required_columns -> In col (map Text.lower columns))
  <-> load_columns (Some columns) w = (Ok (map Text.lower columns), w).
Proof.
  unfold load_columns, try_except. rewrite <- first_missing_None.
  destruct (first_missing required_columns (map Text.lower columns)) eqn:Hm;
    simpl; split; intros H; try reflexivity; discriminate H.
Qed.

(** X19. A failed load is never swallowed.  When a required column is
    missing, the load stops at the first missing one in the order of
    [required_columns], writes one line to the log and re-raises the
    [ValueError]; when the file cannot be read it logs and re-raises
    that error. *)
Theorem load_columns_rejects (read : option (list string)) w :
  match read with
  | None =>
      load_columns read w
      = (Raise OSError, snd (logger_error "Error loading pincode data: " OSError w))
  | Some columns =>
      forall col,
        first_missing required_columns (map Text.lower columns) = Some col ->
        load_columns read w
        = (Raise ValueError,
           snd (logger_error "Error loading pincode data: " ValueError w))
        /\ exists before after,
             required_columns = before ++ col :: after
             /\ (forall c, In c before -> In c (map Text.lower columns))
             /\ ~ In col (map Text.lower columns)
  end.
Proof.
  destruct read as [columns|]; [| reflexivity].
  intros col Hm. split; [| now apply first_missing_Some].
  unfold load_columns, try_except. now rewrite Hm.
Qed.

Example load_columns_upper_case :
  fst (load_columns
         (Some ["CircleName"; "RegionName"; "DivisionName"; "OfficeName"; "Pincode";
                "OfficeType"; "Delivery"; "District"; "StateName"; "Latitude";
                "Longitude"; "Remarks"]) world0)
  = Ok ["circlename"; "regionname"; "divisionname"; "officename"; "pincode";
        "officetype"; "delivery"; "district"; "statename"; "latitude";
        "longitude"; "remarks"]
  /\ first_missing required_columns (map Text.lower ["Pincode"; "District"])
     = Some "circlename".
Proof. split; vm_compute; reflexivity. Qed.

(** ** More on the text of a result *)

(** X20. The index only adds the heading: the text of a result shown
    with index [i] is the line "Result i+1", a newline, and the text of
    the same result shown without an index. *)
Theorem format_result_heading (result : row) (i : nat) :
  format_result result (Some i)
  = "🔹 <b>Result " +:+ Text.str_int (Z.of_nat i + 1) +:+ "</b>" +:+ nl
      +:+ format_result result None.
Proof.
  unfold format_result, format_lines.
  destruct (has_coordinates result); cbn [app Text.join];
    now rewrite !TextFacts.app_assoc.
Qed.

(** ** Failures seen from the chat *)

(** X21. A text that is not an integer and that [re.compile] rejects is
    answered like a search that found nothing: the requester gets the
    "no results" message, the error goes to the log, no session is
    stored or changed and nothing is raised. *)
Theorem handle_search_bad_pattern E df uid text w :
  Text.strip text <> "" ->
  PyInt.py_int (Text.strip text) = None ->
  Regex.compile (re_beyond E) (Text.lower (Text.strip text)) = None ->
  handle_search E df uid text w
  = (Ok tt,
     {| log := log w ++ [("Error in search: ", ReError)];
        sent := sent w ++ [no_results_message];
        user_data := user_data w; files := files w |}).
Proof.
  intros Hq Hint Hre. unfold handle_search. rewrite handle_search_with_run.
  destruct (decide (Text.strip text = "")) as [Hq' | _]; [contradiction |].
  now rewrite (search_by_name_error E df _ w Hint Hre).
Qed.

Lemma handle_search_bad_pattern_witness :
  Text.strip " Nagar (East " <> ""
  /\ PyInt.py_int (Text.strip " Nagar (East ") = None
  /\ sent (snd (handle_search quiet [anna_nagar_east] 1 " Nagar (East " world0))
     = [no_results_message].
Proof.
  assert (Hq : Text.strip " Nagar (East " <> "") by (vm_compute; discriminate).
  split; [exact Hq | split; [reflexivity |]].
  now rewrite (handle_search_bad_pattern quiet [anna_nagar_east] 1 " Nagar (East "
                 world0 Hq eq_refl eq_refl).
Defined.

(** X22. An export that went through can be repeated: pressing the same
    button again sends the same document again and leaves the log, the
    sessions and the working directory as the first export left them. *)
Theorem export_pdf_can_be_repeated E uid query w :
  output_fails E = false -> reply_document_fails E = false ->
  default [] (last_results (session_of w uid)) <> [] ->
  let data := "pdf_export:" +:+ query in
  let w1 := snd (export_pdf E uid data w) in
  export_pdf E uid data w1
  = (Ok tt,
     with_sent w1
       [Answer;
        ReplyDocument (pdf_document (default [] (last_results (session_of w uid))) query)
          ("Here are the pincode results for '" +:+ query +:+ "'")
          ("pincode_results_" +:+ query +:+ ".pdf")])
  /\ sent w1 = sent (with_sent w
       [Answer;
        ReplyDocument (pdf_document (default [] (last_results (session_of w uid))) query)
          ("Here are the pincode results for '" +:+ query +:+ "'")
          ("pincode_results_" +:+ query +:+ ".pdf")]).
Proof.
  intros Hout Hsend Hres data w1. subst data.
  assert (Hw1 : w1 = snd (export_pdf E uid ("pdf_export:" +:+ query) w))
    by reflexivity.
  clearbody w1. rewrite export_pdf_run in Hw1.
  rewrite export_pdf_run.
  destruct (default [] (last_results (session_of w uid))) as [|r rs] eqn:Hrs;
    [contradiction |].
  cbv zeta in *. rewrite Hout, Hsend in *. simpl in Hw1.
  assert (Hs : session_of w1 uid = session_of w uid) by now subst w1.
  rewrite Hs, Hrs. subst w1. unfold with_sent, export_path.
  cbn [log sent user_data files].
  split; [| reflexivity].
  now rewrite delete_delete_eq.
Qed.

Lemma export_pdf_can_be_repeated_witness :
  let w := snd (handle_search quiet [new_delhi_gpo] 1 "delhi" world0) in
  default [] (last_results (session_of w 1)) <> []
  /\ fst (export_pdf quiet 1 "pdf_export:delhi"
            (snd (export_pdf quiet 1 "pdf_export:delhi" w))) = Ok tt.
Proof.
  cbv zeta.
  assert (Hres : default []
                   (last_results
                      (session_of (snd (handle_search quiet [new_delhi_gpo] 1
                                          "delhi" world0)) 1)) <> [])
    by (vm_compute; discriminate).
  split; [exact Hres |].
  destruct (export_pdf_can_be_repeated quiet 1 "delhi" _ eq_refl eq_refl Hres)
    as (Hrun & _).
  change ("pdf_export:" +:+ "delhi") with "pdf_export:delhi" in Hrun.
  now rewrite Hrun.
Defined.

(** X23. The file left behind by an export whose hand-off failed is
    removed by the next export of the same query that goes through. *)
Theorem export_retry_removes_leftover E1 E2 uid query w :
  output_fails E1 = false -> reply_document_fails E1 = true ->
  output_fails E2 = false -> reply_document_fails E2 = false ->
  default [] (last_results (session_of w uid)) <> [] ->
  let data := "pdf_export:" +:+ query in
  let path := "pincode_results_" +:+ query +:+ ".pdf" in
  let w1 := snd (export_pdf E1 uid data w) in
  files w1 !! path = Some (pdf_document (default [] (last_results (session_of w uid))) query)
  /\ files (snd (export_pdf E2 uid data w1)) !! path = None.
Proof.
  intros Hout1 Hsend1 Hout2 Hsend2 Hres data path w1. subst data path.
  split.
  - subst w1. now apply export_pdf_keeps_file.
  - apply export_pdf_removes_file; [exact Hout2 | exact Hsend2 |].
    subst w1.
    assert (Hs : session_of (snd (export_pdf E1 uid ("pdf_export:" +:+ query) w)) uid
                 = session_of w uid)
      by (unfold session_of; now rewrite export_keeps_sessions_aux).
    now rewrite Hs.
Qed.

Lemma export_retry_removes_leftover_witness :
  let w := snd (handle_search quiet [new_delhi_gpo] 1 "delhi" world0) in
  default [] (last_results (session_of w 1)) <> []
  /\ files (snd (export_pdf quiet 1 "pdf_export:delhi"
                   (snd (export_pdf send_refused 1 "pdf_export:delhi" w))))
       !! "pincode_results_delhi.pdf" = None.
Proof.
  cbv zeta.
  assert (Hres : default []
                   (last_results
                      (session_of (snd (handle_search quiet [new_delhi_gpo] 1
                                          "delhi" world0)) 1)) <> [])
    by (vm_compute; discriminate).
  split; [exact Hres |].
  exact (proj2 (export_retry_removes_leftover send_refused quiet 1 "delhi" _
                  eq_refl eq_refl eq_refl eq_refl Hres)).
Defined.
